(** * Verification of paros-tools: get-paros-data.py and influxdb-setup.py

    Shallow embedding of the query construction, the result normalisation,
    the split of query results by table, the dictionary that collects the
    normalised tables, the exporter's dispatch on the file extension, the
    credentials loader, the runner [main] of get-paros-data.py and the
    interactive [main] of influxdb-setup.py. *)

From Stdlib Require Import String Ascii List ZArith Bool Lia.
From Stdlib Require Import Floats.
From Stdlib Require Import Sorting.Sorted Sorting.Permutation.
Import ListNotations.
Open Scope string_scope.

(** ** Python string helpers *)
Module PyStr.

(** The double-quote character, written as a one-character string. *)
Definition dq : string := String (ascii_of_nat 34) EmptyString.

Definition comma : ascii := ascii_of_nat 44.

(** [c in s] for a one-character needle. *)
Fixpoint contains_char (c : ascii) (s : string) : bool :=
  match s with
  | EmptyString => false
  | String a rest => if Ascii.eqb a c then true else contains_char c rest
  end.

(** [s.split(c)] for a one-character separator: always at least one piece. *)
Fixpoint split (c : ascii) (s : string) : list string :=
  match s with
  | EmptyString => [EmptyString]
  | String a rest =>
      if Ascii.eqb a c then EmptyString :: split c rest
      else match split c rest with
           | h :: t => String a h :: t
           | [] => [String a EmptyString]
           end
  end.

(** [sep.join(l)]. *)
Fixpoint join (sep : string) (l : list string) : string :=
  match l with
  | [] => EmptyString
  | [x] => x
  | x :: rest => x ++ sep ++ join sep rest
  end.

(** Number of occurrences of [c] in [s]. *)
Fixpoint count_char (c : ascii) (s : string) : nat :=
  match s with
  | EmptyString => 0
  | String a rest => (if Ascii.eqb a c then 1 else 0) + count_char c rest
  end.

End PyStr.

(** ** Query builder: [createFluxFilters] *)
Module Flux.
Import PyStr.

(** [f'r["{col_name}"] == "{i}"'] *)
Definition predicate (col_name i : string) : string :=
  "r[" ++ dq ++ col_name ++ dq ++ "] == " ++ dq ++ i ++ dq.

(** [createFluxFilters(col_name, in_str)]; [None] is Python's [None]. *)
Definition createFluxFilters (col_name : string) (in_str : option string) : string :=
  match in_str with
  | None => EmptyString
  | Some s =>
      let in_list := if contains_char comma s then split comma s else [s] in
      let filter_list := map (predicate col_name) in_list in
      let filter_list_str := join " or " filter_list in
      if Nat.ltb 0 (length filter_list)
      then "|> filter(fn: (r) => " ++ filter_list_str ++ ")"
      else EmptyString
  end.

(** The list of values the clause is built from: the comma-separated pieces. *)
Definition values (s : string) : list string := split comma s.

End Flux.

(** ** Lemmas on the string helpers *)
Module PyStrFacts.
Import PyStr.

Lemma split_not_nil (c : ascii) (s : string) : split c s <> [].
Proof.
  destruct s as [|a rest]; simpl; [discriminate|].
  destruct (Ascii.eqb a c); [discriminate|].
  destruct (split c rest); discriminate.
Qed.

Lemma split_no_sep (c : ascii) (s : string) :
  contains_char c s = false -> split c s = [s].
Proof.
  induction s as [|a rest IH]; simpl; [reflexivity|].
  destruct (Ascii.eqb a c); [discriminate|].
  intros H. rewrite (IH H). reflexivity.
Qed.

Lemma split_length (c : ascii) (s : string) :
  length (split c s) = S (count_char c s).
Proof.
  induction s as [|a rest IH]; simpl; [reflexivity|].
  destruct (Ascii.eqb a c); simpl.
  - rewrite IH. reflexivity.
  - destruct (split c rest) as [|h t]; simpl in *; [discriminate|].
    exact IH.
Qed.

Lemma join_cons_char (sep : string) (a : ascii) (h : string) (t : list string) :
  join sep (String a h :: t) = String a (join sep (h :: t)).
Proof. destruct t; reflexivity. Qed.

Lemma join_cons_cons (sep x y : string) (l : list string) :
  join sep (x :: y :: l) = x ++ sep ++ join sep (y :: l).
Proof. reflexivity. Qed.

Lemma split_join (c : ascii) (s : string) :
  join (String c EmptyString) (split c s) = s.
Proof.
  induction s as [|a rest IH]; simpl; [reflexivity|].
  destruct (Ascii.eqb a c) eqn:E.
  - apply Ascii.eqb_eq in E. subst a.
    destruct (split c rest) as [|h t] eqn:Hs; [exfalso; exact (split_not_nil c rest Hs)|].
    rewrite join_cons_cons, IH. reflexivity.
  - destruct (split c rest) as [|h t] eqn:Hs; [exfalso; exact (split_not_nil c rest Hs)|].
    rewrite join_cons_char, IH. reflexivity.
Qed.

End PyStrFacts.

(** ** Claim C2 *)
Module FluxProofs.
Import PyStr Flux PyStrFacts.

(** Claim C2 (counterexample): an empty (but present) filter string does not
    give an empty clause; the code builds one predicate [r["_measurement"] == ""]. *)
Lemma createFluxFilters_empty_string_not_omitted :
  createFluxFilters "_measurement" (Some EmptyString) <> EmptyString.
Proof. vm_compute. discriminate. Qed.

Lemma in_list_is_values (s : string) :
  (if contains_char comma s then split comma s else [s]) = values s.
Proof.
  unfold values. destruct (contains_char comma s) eqn:E; [reflexivity|].
  symmetry. apply split_no_sep. exact E.
Qed.

(** Claim C2 (amended): an absent filter ([None]) gives the empty clause; a
    present filter string [s] (also the empty string) gives one
    [filter(fn: (r) => ...)] stage whose body is the predicates
    [r["col"] == "v"], one per comma-separated piece [v] of [s], joined with
    [" or "]; there are (number of commas + 1) pieces and re-joining them
    with commas gives back [s]. *)
Theorem createFluxFilters_clause (col : string) :
  createFluxFilters col None = EmptyString /\
  forall s : string,
    createFluxFilters col (Some s)
      = "|> filter(fn: (r) => " ++ join " or " (map (predicate col) (values s)) ++ ")"
    /\ length (map (predicate col) (values s)) = S (count_char comma s)
    /\ join (String comma EmptyString) (values s) = s.
Proof.
  split; [reflexivity|]. intros s.
  split; [|split].
  - unfold createFluxFilters. rewrite in_list_is_values.
    rewrite length_map. unfold values. rewrite split_length. reflexivity.
  - rewrite length_map. apply split_length.
  - apply split_join.
Qed.

End FluxProofs.

(** ** Naive and aware datetimes

    A naive [datetime] is its count of microseconds since
    1970-01-01T00:00:00 (Python's resolution).  An aware datetime carries its
    wall-clock reading and its UTC offset; it denotes the UTC instant
    [wall - offset]. *)
Module PyDatetime.
Open Scope Z_scope.

Definition naive := Z.

Record aware := { wall : naive; offset : Z }.

Definition us_per_second : Z := 1000000.
Definition us_per_day : Z := 86400 * us_per_second.

(** Days since 1970-01-01 of a proleptic Gregorian date. *)
Definition days_from_civil (y m d : Z) : Z :=
  let y' := if m <=? 2 then y - 1 else y in
  let era := y' / 400 in
  let yoe := y' - era * 400 in
  let mp := (m + 9) mod 12 in
  let doy := (153 * mp + 2) / 5 + d - 1 in
  let doe := yoe * 365 + yoe / 4 - yoe / 100 + doy in
  era * 146097 + doe - 719468.

(** The date [(y, m, d)] of a day count since 1970-01-01. *)
Definition civil_from_days (z : Z) : Z * Z * Z :=
  let z := z + 719468 in
  let era := z / 146097 in
  let doe := z - era * 146097 in
  let yoe := (doe - doe / 1460 + doe / 36524 - doe / 146096) / 365 in
  let doy := doe - (365 * yoe + yoe / 4 - yoe / 100) in
  let mp := (5 * doy + 2) / 153 in
  let d := doy - (153 * mp + 2) / 5 + 1 in
  let m := if mp <? 10 then mp + 3 else mp - 9 in
  let y := yoe + era * 400 in
  (if m <=? 2 then y + 1 else y, m, d).

Definition is_leap (y : Z) : bool :=
  (y mod 4 =? 0) && (negb (y mod 100 =? 0) || (y mod 400 =? 0)).

Definition days_in_month (y m : Z) : Z :=
  if m =? 2 then (if is_leap y then 29 else 28)
  else if (m =? 4) || (m =? 6) || (m =? 9) || (m =? 11) then 30 else 31.

Definition digit_char (n : Z) : ascii := ascii_of_nat (48 + Z.to_nat n).

(** [n] written with exactly [w] decimal digits (zero padded). *)
Fixpoint fixed_digits (w : nat) (n : Z) (acc : string) : string :=
  match w with
  | O => acc
  | S w' => fixed_digits w' (n / 10) (String (digit_char (n mod 10)) acc)
  end.

Definition char_of (n : nat) : string := String (ascii_of_nat n) EmptyString.

(** [datetime.isoformat()] of a naive datetime: [YYYY-MM-DDTHH:MM:SS], with
    [.ffffff] appended when the microsecond field is not zero. *)
Definition isoformat (t : naive) : string :=
  let days := t / us_per_day in
  let rem := t mod us_per_day in
  let '(y, mo, d) := civil_from_days days in
  let secs := rem / us_per_second in
  let us := rem mod us_per_second in
  fixed_digits 4 y EmptyString ++ "-" ++ fixed_digits 2 mo EmptyString ++ "-"
  ++ fixed_digits 2 d EmptyString ++ "T" ++ fixed_digits 2 (secs / 3600) EmptyString
  ++ ":" ++ fixed_digits 2 ((secs / 60) mod 60) EmptyString ++ ":"
  ++ fixed_digits 2 (secs mod 60) EmptyString
  ++ (if us =? 0 then EmptyString else "." ++ fixed_digits 6 us EmptyString).

Definition digit_val (a : ascii) : option Z :=
  let n := nat_of_ascii a in
  if (48 <=? n)%nat && (n <=? 57)%nat then Some (Z.of_nat n - 48) else None.

Fixpoint digits_val (l : list ascii) (acc : Z) : option Z :=
  match l with
  | [] => Some acc
  | a :: rest => match digit_val a with
                 | Some v => digits_val rest (acc * 10 + v)
                 | None => None
                 end
  end.

(** [datetime.fromisoformat] on the basic form [YYYY-MM-DDTHH:MM:SS]; every
    other string is refused ([None], Python's [ValueError]).  Python accepts
    more forms; this covers the one the CLI help text documents. *)
Definition fromisoformat_basic (s : string) : option naive :=
  match list_ascii_of_string s with
  | [y1; y2; y3; y4; dash1; m1; m2; dash2; d1; d2; tee; h1; h2; col1; i1; i2; col2; s1; s2] =>
      if Ascii.eqb dash1 "-"%char && Ascii.eqb dash2 "-"%char && Ascii.eqb tee "T"%char
         && Ascii.eqb col1 ":"%char && Ascii.eqb col2 ":"%char
      then match digits_val [y1; y2; y3; y4] 0, digits_val [m1; m2] 0,
                 digits_val [d1; d2] 0, digits_val [h1; h2] 0,
                 digits_val [i1; i2] 0, digits_val [s1; s2] 0 with
           | Some y, Some mo, Some d, Some h, Some mi, Some sec =>
               if (1 <=? y) && (1 <=? mo) && (mo <=? 12) && (1 <=? d)
                  && (d <=? days_in_month y mo) && (h <? 24) && (mi <? 60) && (sec <? 60)
               then Some (days_from_civil y mo d * us_per_day
                          + ((h * 60 + mi) * 60 + sec) * us_per_second)
               else None
           | _, _, _, _, _, _ => None
           end
      else None
  | _ => None
  end.

End PyDatetime.

(** ** Query builder: the query assembled in [main] *)
Module Query.
Import PyStr PyDatetime.
Open Scope Z_scope.

Definition nl : string := char_of 10.
Definition tab : string := char_of 9.
Definition indent8 : string := "        ".

Section QueryBuilder.
(** The library collaborators: [pytz.timezone], [datetime.fromisoformat],
    [datetime.isoformat] and the UTC offset that [tz.localize] picks for a
    wall-clock reading. *)
Variable tzinfo : Type.
Variable pytz_timezone : string -> option tzinfo.
Variable fromisoformat : string -> option naive.
Variable isoformat : naive -> string.
Variable localize_offset : tzinfo -> naive -> Z.

(** [input_tz.localize(t)] *)
Definition localize (tz : tzinfo) (t : naive) : aware :=
  {| wall := t; offset := localize_offset tz t |}.

(** [t.astimezone(datetime.timezone.utc)] *)
Definition astimezone_utc (t : aware) : aware :=
  {| wall := wall t - offset t; offset := 0 |}.

(** [t.replace(tzinfo=None)] *)
Definition replace_tzinfo_none (t : aware) : naive := wall t.

(** Lines 116-119 (and 120-123 for the end time). *)
Definition query_time (tz : tzinfo) (s : string) : option naive :=
  match fromisoformat s with
  | Some t => Some (replace_tzinfo_none (astimezone_utc (localize tz t)))
  | None => None
  end.

Definition query_head (bucket : string) : string :=
  "from(bucket: " ++ dq ++ bucket ++ dq ++ ")" ++ nl.

Definition range_stage (st et : naive) : string :=
  indent8 ++ "|> range(start: " ++ isoformat st ++ "Z, stop: " ++ isoformat et ++ "Z)" ++ nl.

Definition filter_lines (box_filters sensor_filters : string) : string :=
  (if String.eqb box_filters EmptyString then EmptyString else tab ++ box_filters ++ nl)
  ++ (if String.eqb sensor_filters EmptyString then EmptyString else tab ++ sensor_filters ++ nl).

Definition query_tail : string :=
  tab ++ "|> drop(columns: [" ++ dq ++ "_start" ++ dq ++ ", " ++ dq ++ "_stop" ++ dq ++ "])"
  ++ nl ++ indent8 ++ "|> pivot(rowKey:[" ++ dq ++ "_time" ++ dq ++ "], columnKey: ["
  ++ dq ++ "_field" ++ dq ++ "], valueColumn: " ++ dq ++ "_value" ++ dq ++ ")".

(** Lines 113-140: [None] stands for the exception that a bad zone name or
    a malformed time string raises. *)
Definition build_query (bucket input_zone start_str end_str : string)
    (box_id sensor_id : option string) : option string :=
  match pytz_timezone input_zone with
  | None => None
  | Some input_tz =>
      match query_time input_tz start_str, query_time input_tz end_str with
      | Some start_time, Some end_time =>
          let box_filters := Flux.createFluxFilters "_measurement" box_id in
          let sensor_filters := Flux.createFluxFilters "id" sensor_id in
          Some (query_head bucket ++ range_stage start_time end_time
                ++ filter_lines box_filters sensor_filters ++ query_tail)
      | _, _ => None
      end
  end.

End QueryBuilder.

(** Concrete collaborators for evaluation: fixed-offset zones (offset in
    microseconds) for [Etc/UTC] and [Etc/GMT+5] (five hours behind UTC). *)
Definition pytz_timezone_fixed (name : string) : option Z :=
  if String.eqb name "Etc/UTC" then Some 0
  else if String.eqb name "Etc/GMT+5" then Some (-5 * 3600 * us_per_second)
  else None.

Definition fixed_offset (tz : Z) (_ : naive) : Z := tz.

End Query.

(** ** Claim C3 *)
Module QueryProofs.
Import PyStr PyDatetime Query.
Open Scope Z_scope.

Lemma utc_naive_wall {tzinfo : Type} (localize_offset : tzinfo -> naive -> Z)
    (tz : tzinfo) (t : naive) :
  replace_tzinfo_none (astimezone_utc (localize tzinfo localize_offset tz t))
    = t - localize_offset tz t.
Proof. reflexivity. Qed.

(** Claim C3: the query is built exactly when the zone name and both time
    strings are accepted; then its [range(...)] stage holds, for each bound,
    the string parsed as a naive local time, localized to the input zone,
    converted to UTC and stripped of its zone ([t - offset(t)]), formatted
    with [isoformat] and followed by a literal [Z]
    ([range_stage]: [|> range(start: <iso>Z, stop: <iso>Z)]). *)
Theorem build_query_range_utc (tzinfo : Type) (pytz_timezone : string -> option tzinfo)
    (fromisoformat : string -> option naive) (isoformat : naive -> string)
    (localize_offset : tzinfo -> naive -> Z)
    (bucket input_zone start_str end_str : string) (box_id sensor_id : option string)
    (q : string) :
  build_query tzinfo pytz_timezone fromisoformat isoformat localize_offset
      bucket input_zone start_str end_str box_id sensor_id = Some q
  <->
  exists (tz : tzinfo) (ts te : naive),
    pytz_timezone input_zone = Some tz /\
    fromisoformat start_str = Some ts /\ fromisoformat end_str = Some te /\
    q = query_head bucket
        ++ range_stage isoformat
             (replace_tzinfo_none (astimezone_utc (localize tzinfo localize_offset tz ts)))
             (replace_tzinfo_none (astimezone_utc (localize tzinfo localize_offset tz te)))
        ++ filter_lines (Flux.createFluxFilters "_measurement" box_id)
                        (Flux.createFluxFilters "id" sensor_id)
        ++ query_tail /\
    replace_tzinfo_none (astimezone_utc (localize tzinfo localize_offset tz ts))
      = ts - localize_offset tz ts /\
    replace_tzinfo_none (astimezone_utc (localize tzinfo localize_offset tz te))
      = te - localize_offset tz te.
Proof.
  unfold build_query, query_time. split.
  - destruct (pytz_timezone input_zone) as [tz|]; [|discriminate].
    destruct (fromisoformat start_str) as [ts|]; [|discriminate].
    destruct (fromisoformat end_str) as [te|]; [|discriminate].
    intros H. injection H as <-.
    exists tz, ts, te. repeat split; reflexivity.
  - intros (tz & ts & te & Hz & Hs & He & -> & _ & _).
    rewrite Hz, Hs, He. reflexivity.
Qed.

(** Evaluation at Etc/GMT+5: local midnight is 05:00 UTC in the query. *)
Example build_query_gmt5 :
  build_query Z pytz_timezone_fixed fromisoformat_basic PyDatetime.isoformat fixed_offset
    "parosbox" "Etc/GMT+5" "2024-01-01T00:00:00" "2024-01-02T00:00:00" None None
  = Some (query_head "parosbox"
          ++ (indent8 ++ "|> range(start: 2024-01-01T05:00:00Z, stop: 2024-01-02T05:00:00Z)" ++ nl)
          ++ query_tail).
Proof. vm_compute. reflexivity. Qed.

End QueryProofs.

(** ** Printing-and-raising computations

    [M A] threads the lines printed so far and ends in a Python exception or
    a value. *)
Module PyM.
Open Scope Z_scope.

Inductive exn :=
  | KeyError (label : string)
  | IndexError
  | AttributeError
  | TypeError
  | OSError
  | UnpicklingError
  | SystemExit (code : Z)
  | Unmodelled.

Definition M (A : Type) := list string -> list string * (exn + A).

Definition ret {A} (a : A) : M A := fun out => (out, inr a).
Definition raise {A} (e : exn) : M A := fun out => (out, inl e).
Definition print (s : string) : M unit := fun out => (app out [s], inr tt).
Definition bind {A B} (m : M A) (k : A -> M B) : M B :=
  fun out => match m out with
             | (out', inl e) => (out', inl e)
             | (out', inr a) => k a out'
             end.
Definition run {A} (m : M A) : list string * (exn + A) := m [].

Notation "x <- m ;; k" := (bind m (fun x => k)) (at level 61, m at next level, right associativity).
Notation "m ;;; k" := (bind m (fun _ => k)) (at level 61, right associativity).

End PyM.

(** ** DataFrames

    A frame is its list of labelled columns, in column order; row [i] is the
    [i]-th cell of every column. *)
Module Frame.
Import PyM.
Open Scope Z_scope.

Inductive cell :=
  | CStr (s : string)
  | CInt (z : Z)
  | CFloat (f : float)
  | CAware (utc_ns : Z) (offset_ns : Z)   (** tz-aware [Timestamp] *)
  | CNaive (ns : Z).                      (** naive [Timestamp] *)

Definition column := list cell.
Definition frame := list (string * column).

Definition names (df : frame) : list string := map fst df.

(** [label in df] *)
Definition has_col (df : frame) (label : string) : bool :=
  existsb (fun c => String.eqb (fst c) label) df.

(** [df[label]] for a label held by one column; a repeated label selects a
    sub-frame, which the model does not follow. *)
Definition getcol (df : frame) (label : string) : M column :=
  match filter (fun c => String.eqb (fst c) label) df with
  | [c] => ret (snd c)
  | [] => raise (KeyError label)
  | _ => raise Unmodelled
  end.

(** The column a single label names. *)
Definition column_of (df : frame) (label : string) : option column :=
  match filter (fun c => String.eqb (fst c) label) df with
  | [c] => Some (snd c)
  | _ => None
  end.

(** A frame with no rows: every column is empty. *)
Definition no_rows (df : frame) : bool :=
  forallb (fun c => Nat.eqb (length (snd c)) 0) df.

(** [df[label] = col] for an existing single column: replaced in place. *)
Definition setcol (df : frame) (label : string) (col : column) : frame :=
  map (fun c => if String.eqb (fst c) label then (label, col) else c) df.

(** [df.drop(columns=labels)]: every label must be present, and every column
    carrying one of them goes. *)
Definition drop (df : frame) (labels : list string) : M frame :=
  match find (fun l => negb (has_col df l)) labels with
  | Some l => raise (KeyError l)
  | None => ret (filter (fun c => negb (existsb (String.eqb (fst c)) labels)) df)
  end.

(** [df.rename(columns={old: new})] *)
Definition rename (df : frame) (old new : string) : frame :=
  map (fun c => if String.eqb (fst c) old then (new, snd c) else c) df.

(** [series.iloc[0]] *)
Definition iloc0 (col : column) : M cell :=
  match col with
  | [] => raise IndexError
  | x :: _ => ret x
  end.

Fixpoint pos_digits (fuel : nat) (n : Z) (acc : string) : string :=
  match fuel with
  | O => acc
  | S f => if n <? 10 then String (PyDatetime.digit_char n) acc
           else pos_digits f (n / 10) (String (PyDatetime.digit_char (n mod 10)) acc)
  end.

(** [str(z)] for an integer. *)
Definition z_to_string (z : Z) : string :=
  if z <? 0 then "-" ++ pos_digits 64 (- z) EmptyString else pos_digits 64 z EmptyString.

(** [f"{v}"] of a cell: strings and integers; other cell kinds are not
    followed. *)
Definition str_cell (v : cell) : M string :=
  match v with
  | CStr s => ret s
  | CInt z => ret (z_to_string z)
  | _ => raise Unmodelled
  end.

(** Order-preserving [Series.unique()]. *)
Fixpoint unique (l : list string) : list string :=
  match l with
  | [] => []
  | x :: rest => x :: filter (fun y => negb (String.eqb y x)) (unique rest)
  end.

(** Apply a cell-wise [.dt] operation to a column; the first failing cell
    raises. *)
Fixpoint traverse (f : cell -> exn + cell) (col : column) : exn + column :=
  match col with
  | [] => inr []
  | x :: rest => match f x with
                 | inl e => inl e
                 | inr y => match traverse f rest with
                            | inl e => inl e
                            | inr ys => inr (y :: ys)
                            end
                 end
  end.

End Frame.

(** ** Result normalizer: [processInfluxDF] *)
Module Normalizer.
Import PyM Frame.
Open Scope Z_scope.

(** [float(n)] of an int64: round to nearest double. *)
Definition float_of_int64 (n : Z) : float :=
  SF2Prim (SpecFloat.binary_normalize FloatOps.prec FloatOps.emax n 0 false).

(** [pd.Timestamp("1970-01-01")] in nanoseconds. *)
Definition epoch_ns : Z := 0.

Definition ns_per_second : Z := 1000000000.

(** [(t - pd.Timestamp("1970-01-01")) / pd.Timedelta('1s')]: the nanosecond
    difference and the nanoseconds of one second are converted to double
    and divided. *)
Definition unix_seconds (t_ns : Z) : float :=
  (float_of_int64 (t_ns - epoch_ns) / float_of_int64 ns_per_second)%float.

Definition warning_msg : string :=
  "WARNING: Some anemometer values were recorded with an error code".

Section Normalize.
(** UTC offset (ns) of the output zone at a UTC instant (ns). *)
Variable out_offset : Z -> Z.

(** [.dt.tz_convert(output_tz)] on one cell *)
Definition tz_convert_cell (c : cell) : exn + cell :=
  match c with
  | CAware u _ => inr (CAware u (out_offset u))
  | CNaive _ => inl TypeError
  | _ => inl AttributeError
  end.

(** [.dt.tz_localize(None)] on one cell *)
Definition tz_localize_none_cell (c : cell) : exn + cell :=
  match c with
  | CAware u o => inr (CNaive (u + o))
  | CNaive n => inr (CNaive n)
  | _ => inl AttributeError
  end.

(** [(t - pd.Timestamp("1970-01-01")) / pd.Timedelta('1s')] on one cell *)
Definition unix_cell (c : cell) : exn + cell :=
  match c with
  | CNaive n => inr (CFloat (unix_seconds n))
  | _ => inl TypeError
  end.

(** [out_df["time"] = f(out_df["time"])] *)
Definition update_time (f : cell -> exn + cell) (df : frame) : M frame :=
  t <- getcol df "time" ;;
  match traverse f t with
  | inl e => raise e
  | inr t' => ret (setcol df "time" t')
  end.

Definition err_chars : list string :=
  map (fun a => String a EmptyString) (list_ascii_of_string "err").

Definition processInfluxDF (df : frame) : M (string * frame) :=
  mcol <- getcol df "_measurement" ;;
  box_cell <- iloc0 mcol ;;
  icol <- getcol df "id" ;;
  id_cell <- iloc0 icol ;;
  cur_box <- str_cell box_cell ;;
  cur_id <- str_cell id_cell ;;
  let id_str := cur_box ++ "_" ++ cur_id in
  out_df <- drop df ["result"; "table"; "_measurement"; "id"] ;;
  out_df <- (if has_col out_df "baro_time" then drop out_df ["baro_time"] else ret out_df) ;;
  out_df <- (if has_col out_df "err"
             then (let err_list := unique err_chars in
                   (if Nat.ltb 1 (length err_list) then print warning_msg else ret tt) ;;;
                   drop out_df ["err"])
             else ret out_df) ;;
  let out_df := rename out_df "_time" "time" in
  out_df <- update_time tz_convert_cell out_df ;;
  out_df <- update_time tz_localize_none_cell out_df ;;
  out_df <- update_time unix_cell out_df ;;
  ret (id_str, out_df).

End Normalize.

(** The columns the normalizer removes, [_time] included (it is renamed). *)
Definition removed_labels : list string :=
  ["result"; "table"; "_measurement"; "id"; "baro_time"; "err"; "_time"].

(** A raw result table as the query returns it, one field [p] and the
    diagnostics [err] and [baro_time], all rows with the same error code. *)
Definition sample_frame (times : list Z) (err : string) : frame :=
  [("result", map (fun _ => CStr "_result") times);
   ("table", map (fun _ => CInt 0) times);
   ("_time", map (fun t => CAware t 0) times);
   ("_measurement", map (fun _ => CStr "box7") times);
   ("id", map (fun _ => CStr "P1") times);
   ("baro_time", map (fun _ => CInt 0) times);
   ("err", map (fun _ => CStr err) times);
   ("p", map (fun t => CFloat (float_of_int64 t)) times)].

Definition utc_offset (_ : Z) : Z := 0.

End Normalizer.

(** ** Inversion lemmas for successful runs *)
Module NormalizerFacts.
Import PyM Frame Normalizer.
Open Scope Z_scope.

Lemma bind_inr {A B} (m : M A) (k : A -> M B) (o o2 : list string) (b : B) :
  bind m k o = (o2, inr b) ->
  exists o1 a, m o = (o1, inr a) /\ k a o1 = (o2, inr b).
Proof.
  unfold bind. destruct (m o) as [o1 [e|a]]; [discriminate|].
  intros H. exists o1, a. split; [reflexivity|exact H].
Qed.

Lemma bind_inl {A B} (m : M A) (k : A -> M B) (o o1 : list string) (e : exn) :
  m o = (o1, inl e) -> bind m k o = (o1, inl e).
Proof. unfold bind. intros ->. reflexivity. Qed.

Lemma ret_inv {A} (a b : A) (o o' : list string) :
  ret a o = (o', inr b) -> o' = o /\ b = a.
Proof. unfold ret. intros H. injection H as -> ->. split; reflexivity. Qed.

Lemma getcol_inr (df : frame) (l : string) (o o' : list string) (c : column) :
  getcol df l o = (o', inr c) ->
  o' = o /\ filter (fun x => String.eqb (fst x) l) df = [(l, c)].
Proof.
  unfold getcol.
  destruct (filter (fun x => String.eqb (fst x) l) df) as [|[n c0] [|y t]] eqn:E;
    try discriminate.
  assert (Hin : In (n, c0) (filter (fun x => String.eqb (fst x) l) df))
    by (rewrite E; left; reflexivity).
  apply filter_In in Hin. destruct Hin as [_ Hn]. apply String.eqb_eq in Hn. simpl in Hn.
  subst n. unfold ret. intros H. injection H as H1 H2. subst. split; reflexivity.
Qed.

Lemma iloc0_inr (col : column) (o o' : list string) (x : cell) :
  iloc0 col o = (o', inr x) -> o' = o /\ exists rest, col = x :: rest.
Proof.
  destruct col as [|y rest]; [discriminate|].
  simpl. unfold ret. intros H. injection H as -> ->. split; [reflexivity|]. exists rest. reflexivity.
Qed.

Lemma str_cell_inr (v : cell) (o o' : list string) (s : string) :
  str_cell v o = (o', inr s) ->
  o' = o /\ ((v = CStr s) \/ (exists z, v = CInt z /\ s = z_to_string z)).
Proof.
  destruct v as [s0|z| | |]; simpl; unfold ret, raise; intros H; try discriminate;
    injection H as H1 H2; subst; split; auto.
  right. exists z. split; reflexivity.
Qed.

Definition kept (labels : list string) (c : string * column) : bool :=
  negb (existsb (String.eqb (fst c)) labels).

Lemma drop_inr (df df' : frame) (ls : list string) (o o' : list string) :
  drop df ls o = (o', inr df') ->
  o' = o /\ df' = filter (kept ls) df /\ forall l, In l ls -> has_col df l = true.
Proof.
  unfold drop. destruct (find (fun l => negb (has_col df l)) ls) eqn:E; [discriminate|].
  unfold ret. intros H. injection H as H1 H2. subst. split; [reflexivity|].
  split; [reflexivity|].
  intros l Hl. destruct (has_col df l) eqn:Hc; [reflexivity|].
  exfalso. apply (find_none _ _ E) in Hl. rewrite Hc in Hl. discriminate.
Qed.

Lemma update_time_inr (f : cell -> exn + cell) (df df' : frame) (o o' : list string) :
  update_time f df o = (o', inr df') ->
  o' = o /\ exists t t',
    filter (fun x => String.eqb (fst x) "time") df = [("time", t)] /\
    traverse f t = inr t' /\ df' = setcol df "time" t'.
Proof.
  unfold update_time. intros H. apply bind_inr in H. destruct H as (o1 & t & Hg & H).
  apply getcol_inr in Hg. destruct Hg as [-> Hg].
  destruct (traverse f t) as [e|t'] eqn:Ht; [discriminate|].
  apply ret_inv in H. destruct H as [-> ->]. split; [reflexivity|].
  exists t, t'. auto.
Qed.

Lemma filter_filter_and {A} (f g : A -> bool) (l : list A) :
  filter f (filter g l) = filter (fun x => g x && f x) l.
Proof.
  induction l as [|x l IH]; simpl; [reflexivity|].
  destruct (g x); simpl; [destruct (f x); simpl; rewrite IH; reflexivity|exact IH].
Qed.

Lemma kept_app (ls1 ls2 : list string) (c : string * column) :
  kept (ls1 ++ ls2) c = kept ls1 c && kept ls2 c.
Proof. unfold kept. rewrite existsb_app. destruct (existsb _ ls1); reflexivity. Qed.

Lemma filter_kept_absent (df : frame) (l : string) :
  has_col df l = false -> filter (kept [l]) df = df.
Proof.
  induction df as [|c df IH]; simpl; [reflexivity|].
  unfold kept at 1. simpl. rewrite orb_false_r.
  destruct (String.eqb (fst c) l); simpl; [discriminate|].
  intros H. rewrite (IH H). reflexivity.
Qed.

Lemma has_col_kept (df : frame) (ls : list string) (l : string) :
  ~ In l ls -> has_col (filter (kept ls) df) l = has_col df l.
Proof.
  intros Hl. induction df as [|c df IH]; simpl; [reflexivity|].
  destruct (kept ls c) eqn:Hk; simpl; rewrite IH; [reflexivity|].
  destruct (String.eqb (fst c) l) eqn:E; simpl; [|reflexivity].
  exfalso. apply String.eqb_eq in E. unfold kept in Hk.
  apply negb_false_iff, existsb_exists in Hk. destruct Hk as [x [Hx Ex]].
  apply String.eqb_eq in Ex. apply Hl. rewrite <- E, Ex. exact Hx.
Qed.

Lemma filter_setcol_same (df : frame) (l : string) (t : column) :
  filter (fun x => String.eqb (fst x) l) (setcol df l t)
  = map (fun _ => (l, t)) (filter (fun x => String.eqb (fst x) l) df).
Proof.
  induction df as [|c df IH]; simpl; [reflexivity|].
  destruct (String.eqb (fst c) l) eqn:E; simpl.
  - rewrite String.eqb_refl. simpl. rewrite IH. reflexivity.
  - rewrite E. exact IH.
Qed.

Lemma filter_setcol_other (df : frame) (l : string) (t : column) :
  filter (fun x => negb (String.eqb (fst x) l)) (setcol df l t)
  = filter (fun x => negb (String.eqb (fst x) l)) df.
Proof.
  induction df as [|c df IH]; simpl; [reflexivity|].
  destruct (String.eqb (fst c) l) eqn:E; simpl.
  - rewrite String.eqb_refl. simpl. exact IH.
  - rewrite E. simpl. rewrite IH. reflexivity.
Qed.

Lemma names_setcol (df : frame) (l : string) (t : column) :
  names (setcol df l t) = names df.
Proof.
  induction df as [|c df IH]; simpl; [reflexivity|].
  destruct (String.eqb (fst c) l) eqn:E; simpl; rewrite IH; [|reflexivity].
  apply String.eqb_eq in E. rewrite E. reflexivity.
Qed.

Lemma names_rename (df : frame) (a b : string) :
  names (rename df a b) = map (fun n => if String.eqb n a then b else n) (names df).
Proof.
  induction df as [|c df IH]; simpl; [reflexivity|].
  destruct (String.eqb (fst c) a); simpl; rewrite IH; reflexivity.
Qed.

Lemma filter_rename_other (df : frame) (a b : string) :
  filter (fun x => negb (String.eqb (fst x) b)) (rename df a b)
  = filter (fun x => negb (String.eqb (fst x) a) && negb (String.eqb (fst x) b)) df.
Proof.
  induction df as [|c df IH]; simpl; [reflexivity|].
  destruct (String.eqb (fst c) a) eqn:E; simpl.
  - rewrite String.eqb_refl. simpl. exact IH.
  - rewrite IH. reflexivity.
Qed.

Lemma setcol_length_one (df : frame) (l : string) (t t' : column) :
  filter (fun x => String.eqb (fst x) l) df = [(l, t)] ->
  filter (fun x => String.eqb (fst x) l) (setcol df l t') = [(l, t')].
Proof. intros H. rewrite filter_setcol_same, H. reflexivity. Qed.

Definition base_labels : list string := ["result"; "table"; "_measurement"; "id"].

(** The frame after the drops and the rename, before the time conversion. *)
Definition stripped (df : frame) : frame :=
  rename (filter (kept ["err"]) (filter (kept ["baro_time"]) (filter (kept base_labels) df)))
         "_time" "time".

Lemma err_list_long : Nat.ltb 1 (length (unique err_chars)) = true.
Proof. vm_compute. reflexivity. Qed.

Lemma drop_optional (d : frame) (l : string) (o o' : list string) (d' : frame) :
  (if has_col d l then drop d [l] else ret d) o = (o', inr d') ->
  o' = o /\ d' = filter (kept [l]) d.
Proof.
  destruct (has_col d l) eqn:E.
  - intros H. apply drop_inr in H. destruct H as [-> [-> _]]. split; reflexivity.
  - intros H. apply ret_inv in H. destruct H as [-> ->]. split; [reflexivity|].
    symmetry. apply filter_kept_absent. exact E.
Qed.

(** What a successful run of [processInfluxDF] did. *)
Lemma process_inr (off : Z -> Z) (df : frame) (o o' : list string) (ids : string) (out : frame) :
  processInfluxDF off df o = (o', inr (ids, out)) ->
  exists box_c mrest id_c irest cur_box cur_id t0 t1 t2 t3,
    filter (fun x => String.eqb (fst x) "_measurement") df = [("_measurement", box_c :: mrest)] /\
    filter (fun x => String.eqb (fst x) "id") df = [("id", id_c :: irest)] /\
    str_cell box_c o = (o, inr cur_box) /\ str_cell id_c o = (o, inr cur_id) /\
    ids = cur_box ++ "_" ++ cur_id /\
    o' = app o (if has_col df "err" then [warning_msg] else []) /\
    filter (fun x => String.eqb (fst x) "time") (stripped df) = [("time", t0)] /\
    traverse (tz_convert_cell off) t0 = inr t1 /\
    traverse tz_localize_none_cell t1 = inr t2 /\
    traverse unix_cell t2 = inr t3 /\
    out = setcol (setcol (setcol (stripped df) "time" t1) "time" t2) "time" t3.
Proof.
  unfold processInfluxDF. intros H.
  apply bind_inr in H. destruct H as (o1 & mcol & Hm & H). apply getcol_inr in Hm. destruct Hm as [-> Hm].
  apply bind_inr in H. destruct H as (o1 & box_c & Hb & H). apply iloc0_inr in Hb.
  destruct Hb as [-> [mrest ->]].
  apply bind_inr in H. destruct H as (o1 & icol & Hi & H). apply getcol_inr in Hi. destruct Hi as [-> Hi].
  apply bind_inr in H. destruct H as (o1 & id_c & Hc & H). apply iloc0_inr in Hc.
  destruct Hc as [-> [irest ->]].
  apply bind_inr in H. destruct H as (o1 & cur_box & Hsb & H).
  pose proof (str_cell_inr _ _ _ _ Hsb) as [Eo _]. subst o1.
  apply bind_inr in H. destruct H as (o1 & cur_id & Hsi & H).
  pose proof (str_cell_inr _ _ _ _ Hsi) as [Eo _]. subst o1.
  cbv beta zeta in H.
  apply bind_inr in H. destruct H as (o1 & d1 & Hd & H). apply drop_inr in Hd.
  destruct Hd as [-> [-> _]].
  apply bind_inr in H. destruct H as (o1 & d2 & Hd & H). apply drop_optional in Hd.
  destruct Hd as [-> ->].
  assert (Herr : has_col (filter (kept ["baro_time"]) (filter (kept base_labels) df)) "err"
                 = has_col df "err").
  { rewrite has_col_kept by (simpl; intuition discriminate).
    apply has_col_kept. unfold base_labels. simpl. intuition discriminate. }
  apply bind_inr in H. destruct H as (o1 & d3 & Hd & H).
  assert (Hd3 : o1 = app o (if has_col df "err" then [warning_msg] else [])
                /\ d3 = filter (kept ["err"]) (filter (kept ["baro_time"]) (filter (kept base_labels) df))).
  { clear H. rewrite <- Herr. destruct (has_col _ "err") eqn:E.
    - apply bind_inr in Hd. destruct Hd as (o2 & u & Hp & Hd').
      rewrite err_list_long in Hp. unfold print in Hp. injection Hp as <- _.
      cbv beta in Hd'. apply drop_inr in Hd'. destruct Hd' as [-> [-> _]]. split; reflexivity.
    - apply ret_inv in Hd. destruct Hd as [-> ->]. rewrite app_nil_r. split; [reflexivity|].
      symmetry. apply filter_kept_absent. exact E. }
  clear Hd.
  destruct Hd3 as [-> ->]. cbv zeta in H.
  fold (stripped df) in H.
  apply bind_inr in H. destruct H as (o1 & d4 & Hd & H). apply update_time_inr in Hd.
  destruct Hd as [-> (t0 & t1 & Ht0 & Hc1 & ->)].
  apply bind_inr in H. destruct H as (o1 & d5 & Hd & H). apply update_time_inr in Hd.
  destruct Hd as [-> (t1' & t2 & Ht1 & Hc2 & ->)].
  rewrite (setcol_length_one _ _ _ t1 Ht0) in Ht1. injection Ht1 as <-.
  apply bind_inr in H. destruct H as (o1 & d6 & Hd & H). apply update_time_inr in Hd.
  destruct Hd as [-> (t2' & t3 & Ht2 & Hc3 & ->)].
  rewrite (setcol_length_one _ _ _ t2 (setcol_length_one _ _ _ t1 Ht0)) in Ht2.
  injection Ht2 as <-.
  apply ret_inv in H. destruct H as [-> He]. injection He as -> ->.
  exists box_c, mrest, id_c, irest, cur_box, cur_id, t0, t1, t2, t3.
  repeat split; assumption.
Qed.

Ltac split_eqbs :=
  repeat match goal with
         | |- context [String.eqb ?a ?b] => destruct (String.eqb a b)
         end.

Definition six_labels : list string := base_labels ++ ["baro_time"; "err"].

Lemma stripped_filters (df : frame) :
  filter (kept ["err"]) (filter (kept ["baro_time"]) (filter (kept base_labels) df))
  = filter (kept six_labels) df.
Proof.
  rewrite !filter_filter_and. apply filter_ext. intros c.
  unfold kept, six_labels, base_labels. simpl. split_eqbs; reflexivity.
Qed.

Lemma in_kept_not (df : frame) (ls : list string) (c : string * column) :
  In c (filter (kept ls) df) -> ~ In (fst c) ls.
Proof.
  intros Hc Hin. apply filter_In in Hc. destruct Hc as [_ Hk].
  unfold kept in Hk. apply negb_true_iff in Hk.
  assert (Hex : existsb (String.eqb (fst c)) ls = true).
  { apply existsb_exists. exists (fst c). split; [exact Hin|apply String.eqb_refl]. }
  rewrite Hk in Hex. discriminate.
Qed.

Lemma traverse_forall2 (f : cell -> exn + cell) (a b : column) :
  traverse f a = inr b -> Forall2 (fun x y => f x = inr y) a b.
Proof.
  revert b. induction a as [|x a IH]; intros b; simpl.
  - intros H. injection H as <-. constructor.
  - destruct (f x) as [e|y] eqn:Ef; [discriminate|].
    destruct (traverse f a) as [e|ys] eqn:Et; [discriminate|].
    intros H. injection H as <-. constructor; [exact Ef|apply IH; reflexivity].
Qed.

Lemma forall2_compose3 {A} (R1 R2 R3 : A -> A -> Prop) (a b c d : list A) :
  Forall2 R1 a b -> Forall2 R2 b c -> Forall2 R3 c d ->
  Forall2 (fun x w => exists y z, R1 x y /\ R2 y z /\ R3 z w) a d.
Proof.
  intros H1. revert c d. induction H1 as [|x y a' b' Hxy H1 IH]; intros c d H2 H3.
  - inversion H2; subst. inversion H3; subst. constructor.
  - inversion H2 as [|y' z b'' c' Hyz H2']; subst.
    inversion H3 as [|z' w c'' d' Hzw H3']; subst.
    constructor; [exists y, z; auto|]. apply (IH c'); assumption.
Qed.

End NormalizerFacts.

(** ** Claims C1, C4, C5, C6, C9 *)
Module NormalizerProofs.
Import PyM Frame Normalizer NormalizerFacts.
Open Scope Z_scope.

(** Text of a cell under [f"{v}"] for the cell kinds the code formats. *)
Definition cell_text (c : cell) : string :=
  match c with
  | CStr s => s
  | CInt z => z_to_string z
  | _ => EmptyString
  end.

Lemma str_cell_text (v : cell) (o : list string) (s : string) :
  str_cell v o = (o, inr s) -> s = cell_text v.
Proof.
  intros H. apply str_cell_inr in H. destruct H as [_ [->|(z & -> & ->)]]; reflexivity.
Qed.

Lemma column_of_single (df : frame) (l : string) (c : column) :
  filter (fun x => String.eqb (fst x) l) df = [(l, c)] -> column_of df l = Some c.
Proof. unfold column_of. intros ->. reflexivity. Qed.

(** Claim C5: the identifier of a normalised table is the text of the first
    [_measurement] value, an underscore, and the text of the first [id] value. *)
Theorem processInfluxDF_identifier (off : Z -> Z) (df : frame)
    (prints : list string) (ids : string) (out : frame) :
  run (processInfluxDF off df) = (prints, inr (ids, out)) ->
  exists m i mrest irest,
    column_of df "_measurement" = Some (m :: mrest) /\
    column_of df "id" = Some (i :: irest) /\
    ids = cell_text m ++ "_" ++ cell_text i.
Proof.
  unfold run. intros H. apply process_inr in H.
  destruct H as (m & mrest & i & irest & cb & ci & t0 & t1 & t2 & t3 &
                 Hm & Hi & Hsb & Hsi & -> & _).
  exists m, i, mrest, irest.
  split; [apply column_of_single; exact Hm|].
  split; [apply column_of_single; exact Hi|].
  rewrite (str_cell_text _ _ _ Hsb), (str_cell_text _ _ _ Hsi). reflexivity.
Qed.

Lemma processInfluxDF_identifier_witness :
  exists prints ids out,
    run (processInfluxDF utc_offset (sample_frame [10000000000] "0")) = (prints, inr (ids, out))
    /\ ids = "box7_P1".
Proof.
  destruct (run (processInfluxDF utc_offset (sample_frame [10000000000] "0")))
    as [prints [e|[ids out]]] eqn:E; [vm_compute in E; discriminate|].
  exists prints, ids, out. split; [reflexivity|].
  destruct (processInfluxDF_identifier _ _ _ _ _ E) as (m & i & mrest & irest & Hm & Hi & ->).
  vm_compute in Hm, Hi. injection Hm as <- _. injection Hi as <- _. reflexivity.
Defined.

(** Claim C9: on a frame with no rows the normalizer raises before printing
    anything: [_measurement] is missing, or its [iloc[0]] fails. *)
Theorem processInfluxDF_no_rows_raises (off : Z -> Z) (df : frame) :
  no_rows df = true ->
  exists e, run (processInfluxDF off df) = ([], inl e).
Proof.
  intros H. unfold run, processInfluxDF, bind at 1, getcol at 1.
  destruct (filter (fun x => String.eqb (fst x) "_measurement") df) as [|c [|c' t]] eqn:E.
  - eexists. reflexivity.
  - assert (Hc : In c df).
    { assert (Hin : In c (filter (fun x => String.eqb (fst x) "_measurement") df))
        by (rewrite E; left; reflexivity).
      apply filter_In in Hin. exact (proj1 Hin). }
    unfold no_rows in H. rewrite forallb_forall in H. apply H in Hc.
    destruct c as [n col]. simpl in Hc.
    destruct col as [|x rest]; [|discriminate].
    eexists. reflexivity.
  - eexists. reflexivity.
Qed.

Lemma processInfluxDF_no_rows_raises_witness :
  no_rows (sample_frame [] "0") = true /\
  exists e, run (processInfluxDF utc_offset (sample_frame [] "0")) = ([], inl e).
Proof.
  split; [reflexivity|].
  apply (processInfluxDF_no_rows_raises utc_offset (sample_frame [] "0")). reflexivity.
Defined.

End NormalizerProofs.

Module NormalizerColumns.
Import PyM Frame Normalizer NormalizerFacts NormalizerProofs.
Open Scope Z_scope.

Lemma names_after_time_updates (df : frame) (t1 t2 t3 : column) :
  names (setcol (setcol (setcol df "time" t1) "time" t2) "time" t3) = names df.
Proof. rewrite !names_setcol. reflexivity. Qed.

(** Claim C6: a normalised table has none of the columns [result], [table],
    [_measurement], [id], [baro_time], [err], [_time]; it has a [time]
    column; and its other columns are the input's other columns, in the same
    order and with the same cells (so with the same row order). *)
Theorem processInfluxDF_columns (off : Z -> Z) (df : frame)
    (prints : list string) (ids : string) (out : frame) :
  run (processInfluxDF off df) = (prints, inr (ids, out)) ->
  (forall l, In l removed_labels -> ~ In l (names out)) /\
  In "time" (names out) /\
  filter (fun c => negb (String.eqb (fst c) "time")) out
    = filter (kept ("time" :: removed_labels)) df.
Proof.
  unfold run. intros H. apply process_inr in H.
  destruct H as (m & mrest & i & irest & cb & ci & t0 & t1 & t2 & t3 &
                 _ & _ & _ & _ & _ & _ & Ht0 & _ & _ & _ & ->).
  split; [|split].
  - intros l Hl Hn. rewrite names_after_time_updates in Hn.
    unfold stripped in Hn. rewrite names_rename, stripped_filters in Hn.
    apply in_map_iff in Hn. destruct Hn as [n [Hren Hn]].
    apply in_map_iff in Hn. destruct Hn as [c [<- Hc]].
    apply in_kept_not in Hc.
    destruct (String.eqb (fst c) "_time") eqn:E.
    + subst l. unfold removed_labels in Hl. simpl in Hl. intuition discriminate.
    + subst l. apply Hc. unfold removed_labels in Hl. unfold six_labels, base_labels.
      simpl in Hl |- *. apply String.eqb_neq in E. intuition.
  - rewrite names_after_time_updates.
    assert (Hin : In ("time", t0) (filter (fun x => String.eqb (fst x) "time") (stripped df)))
      by (rewrite Ht0; left; reflexivity).
    apply filter_In in Hin. exact (in_map fst _ _ (proj1 Hin)).
  - rewrite !filter_setcol_other. unfold stripped.
    rewrite filter_rename_other, stripped_filters, filter_filter_and.
    apply filter_ext. intros c. unfold kept, six_labels, base_labels, removed_labels.
    simpl. split_eqbs; reflexivity.
Qed.

Lemma processInfluxDF_columns_witness :
  exists prints ids out,
    run (processInfluxDF utc_offset (sample_frame [10000000000] "0")) = (prints, inr (ids, out))
    /\ In "time" (names out).
Proof.
  destruct (run (processInfluxDF utc_offset (sample_frame [10000000000] "0")))
    as [prints [e|[ids out]]] eqn:E; [vm_compute in E; discriminate|].
  exists prints, ids, out. split; [reflexivity|].
  exact (proj1 (proj2 (processInfluxDF_columns _ _ _ _ _ E))).
Defined.

End NormalizerColumns.

Module NormalizerTime.
Import PyM Frame Normalizer NormalizerFacts NormalizerProofs.
Open Scope Z_scope.

(** [denotes f num den]: the double [f] is exactly the rational [num/den]. *)
Definition denotes (f : float) (num den : Z) : bool :=
  match Prim2SF f with
  | S754_zero _ => num =? 0
  | S754_finite s m e =>
      let v := if s then Z.neg m else Z.pos m in
      if 0 <=? e then v * 2 ^ e * den =? num else v * den =? num * 2 ^ (- e)
  | _ => false
  end.

(** Claim C4 (counterexample): a row 100 ms after the epoch (output zone UTC)
    normalises to the double nearest 0.1, which is not the exact quotient
    1/10 of a second. *)
Lemma unix_time_not_exact :
  match run (processInfluxDF utc_offset (sample_frame [100000000] "0")) with
  | (_, inr (_, out)) =>
      match column_of out "time" with
      | Some [CFloat f] => denotes f 1 10 = false
      | _ => False
      end
  | _ => False
  end.
Proof. vm_compute. reflexivity. Qed.

(** Claim C4 (amended): every row's final [time] is [unix_seconds] of its
    output-zone naive time [u + offset(u)] in nanoseconds: the double
    quotient of the nanosecond difference from 1970-01-01 (as a double) by
    1e9; 10 s after the epoch gives exactly [10.0]. *)
Theorem processInfluxDF_unix_time (off : Z -> Z) (df : frame)
    (prints : list string) (ids : string) (out : frame) :
  run (processInfluxDF off df) = (prints, inr (ids, out)) ->
  exists tin tout,
    column_of (stripped df) "time" = Some tin /\
    column_of out "time" = Some tout /\
    Forall2 (fun cin cout => exists u o, cin = CAware u o
                              /\ cout = CFloat (unix_seconds (u + off u))) tin tout /\
    unix_seconds (10 * ns_per_second) = 10%float.
Proof.
  unfold run. intros H. apply process_inr in H.
  destruct H as (m & mrest & i & irest & cb & ci & t0 & t1 & t2 & t3 &
                 _ & _ & _ & _ & _ & _ & Ht0 & Hc1 & Hc2 & Hc3 & ->).
  exists t0, t3. split; [apply column_of_single; exact Ht0|].
  split.
  { apply column_of_single.
    exact (setcol_length_one _ _ _ _ (setcol_length_one _ _ _ _ (setcol_length_one _ _ _ _ Ht0))). }
  split; [|vm_compute; reflexivity].
  apply traverse_forall2 in Hc1, Hc2, Hc3.
  pose proof (forall2_compose3 _ _ _ _ _ _ _ Hc1 Hc2 Hc3) as HF.
  refine (Forall2_impl _ _ HF).
  intros x w (y & z & Hxy & Hyz & Hzw).
  destruct x as [| | |u o|]; simpl in Hxy; try discriminate.
  injection Hxy as <-. simpl in Hyz. injection Hyz as <-. simpl in Hzw. injection Hzw as <-.
  exists u, o. split; reflexivity.
Qed.

Lemma processInfluxDF_unix_time_witness :
  exists prints ids out tin tout,
    run (processInfluxDF utc_offset (sample_frame [10000000000] "0")) = (prints, inr (ids, out))
    /\ column_of (stripped (sample_frame [10000000000] "0")) "time" = Some tin
    /\ column_of out "time" = Some tout
    /\ Forall2 (fun cin cout => exists u o, cin = CAware u o
                                 /\ cout = CFloat (unix_seconds (u + utc_offset u))) tin tout.
Proof.
  destruct (run (processInfluxDF utc_offset (sample_frame [10000000000] "0")))
    as [prints [e|[ids out]]] eqn:E; [vm_compute in E; discriminate|].
  destruct (processInfluxDF_unix_time _ _ _ _ _ E) as (tin & tout & H1 & H2 & H3 & _).
  exists prints, ids, out, tin, tout. split; [reflexivity|]. auto.
Defined.

(** Claim C1 (code behaviour at the failing input): the [err] column holds a
    single distinct value, yet the warning is printed; the [err] column does
    not reach the output. *)
Theorem err_single_value_still_warns :
  column_of (sample_frame [10000000000; 20000000000] "0") "err" = Some [CStr "0"; CStr "0"] /\
  match run (processInfluxDF utc_offset (sample_frame [10000000000; 20000000000] "0")) with
  | (prints, inr (_, out)) => prints = [warning_msg] /\ has_col out "err" = false
  | _ => False
  end.
Proof. vm_compute. split; [reflexivity|split; reflexivity]. Qed.

(** The warning is printed exactly when the input has an [err] column,
    whatever its values. *)
Theorem processInfluxDF_warns_iff_err_column (off : Z -> Z) (df : frame)
    (prints : list string) (ids : string) (out : frame) :
  run (processInfluxDF off df) = (prints, inr (ids, out)) ->
  prints = if has_col df "err" then [warning_msg] else [].
Proof.
  unfold run. intros H. apply process_inr in H.
  destruct H as (m & mrest & i & irest & cb & ci & t0 & t1 & t2 & t3 &
                 _ & _ & _ & _ & _ & -> & _). reflexivity.
Qed.

Lemma processInfluxDF_warns_iff_err_column_witness :
  exists prints ids out,
    run (processInfluxDF utc_offset (sample_frame [10000000000] "1")) = (prints, inr (ids, out))
    /\ prints = [warning_msg].
Proof.
  destruct (run (processInfluxDF utc_offset (sample_frame [10000000000] "1")))
    as [prints [e|[ids out]]] eqn:E; [vm_compute in E; discriminate|].
  exists prints, ids, out. split; [reflexivity|].
  exact (processInfluxDF_warns_iff_err_column _ _ _ _ _ E).
Defined.

End NormalizerTime.

(** ** The output bundle: [out_df[cur_idstr] = cur_df] in [main]

    A Python dict as an insertion-ordered association list: assigning an
    existing key replaces its value in place. *)
Module Bundle.
Import PyM Frame Normalizer.

Definition dict := list (string * frame).

Fixpoint dict_set (d : dict) (k : string) (v : frame) : dict :=
  match d with
  | [] => [(k, v)]
  | (k', v') :: rest => if String.eqb k' k then (k, v) :: rest else (k', v') :: dict_set rest k v
  end.

Definition dict_lookup (d : dict) (k : string) : option frame :=
  match find (fun p => String.eqb (fst p) k) d with
  | Some p => Some (snd p)
  | None => None
  end.

Definition keys (d : dict) : list string := map fst d.

(** Lines 155-159: process each group and store it under its identifier. *)
Fixpoint collect (off : Z -> Z) (dfs : list frame) (acc : dict) : M dict :=
  match dfs with
  | [] => ret acc
  | df :: rest => r <- processInfluxDF off df ;; collect off rest (dict_set acc (fst r) (snd r))
  end.

(** The dict the loop leaves after storing [results] in order. *)
Definition build (results : list (string * frame)) : dict :=
  fold_left (fun d r => dict_set d (fst r) (snd r)) results [].

(** The value stored last under [k] in [results]. *)
Definition last_value (k : string) (results : list (string * frame)) : option frame :=
  fold_left (fun a r => if String.eqb (fst r) k then Some (snd r) else a) results None.

End Bundle.

Module BundleProofs.
Import PyM Frame Normalizer NormalizerFacts Bundle.

Lemma lookup_dict_set (d : dict) (k x : string) (v : frame) :
  dict_lookup (dict_set d k v) x = if String.eqb k x then Some v else dict_lookup d x.
Proof.
  unfold dict_lookup. induction d as [|[k' v'] rest IH]; simpl.
  - destruct (String.eqb k x); reflexivity.
  - destruct (String.eqb k' k) eqn:E; simpl.
    + apply String.eqb_eq in E. subst k'. destruct (String.eqb k x); reflexivity.
    + destruct (String.eqb k' x) eqn:E'; [|exact IH].
      apply String.eqb_eq in E'. subst k'.
      destruct (String.eqb k x) eqn:E''; [|reflexivity].
      apply String.eqb_eq in E''. subst. rewrite String.eqb_refl in E. discriminate.
Qed.

Lemma in_keys_dict_set (d : dict) (k x : string) (v : frame) :
  In x (keys (dict_set d k v)) <-> x = k \/ In x (keys d).
Proof.
  induction d as [|[k' v'] rest IH]; simpl.
  - intuition.
  - destruct (String.eqb k' k) eqn:E; simpl.
    + apply String.eqb_eq in E. subst k'. intuition.
    + rewrite IH. intuition.
Qed.

Lemma nodup_dict_set (d : dict) (k : string) (v : frame) :
  NoDup (keys d) -> NoDup (keys (dict_set d k v)).
Proof.
  induction d as [|[k' v'] rest IH]; simpl; intros H.
  - constructor; [intros []|constructor].
  - inversion H as [|? ? Hn Hr]; subst.
    destruct (String.eqb k' k) eqn:E; simpl.
    + apply String.eqb_eq in E. subst k'. constructor; assumption.
    + constructor; [|apply IH; exact Hr].
      rewrite in_keys_dict_set. intros [->|Hin]; [rewrite String.eqb_refl in E; discriminate|].
      exact (Hn Hin).
Qed.

Lemma lookup_fold (results : list (string * frame)) (d : dict) (x : string) :
  dict_lookup (fold_left (fun d r => dict_set d (fst r) (snd r)) results d) x
  = fold_left (fun a r => if String.eqb (fst r) x then Some (snd r) else a) results (dict_lookup d x).
Proof.
  revert d. induction results as [|r rest IH]; intros d; simpl; [reflexivity|].
  rewrite IH, lookup_dict_set. reflexivity.
Qed.

Lemma keys_fold (results : list (string * frame)) (d : dict) (x : string) :
  In x (keys (fold_left (fun d r => dict_set d (fst r) (snd r)) results d))
  <-> In x (keys d) \/ In x (map fst results).
Proof.
  revert d. induction results as [|r rest IH]; intros d; simpl; [intuition|].
  rewrite IH, in_keys_dict_set. intuition.
Qed.

Lemma nodup_fold (results : list (string * frame)) (d : dict) :
  NoDup (keys d) -> NoDup (keys (fold_left (fun d r => dict_set d (fst r) (snd r)) results d)).
Proof.
  revert d. induction results as [|r rest IH]; intros d H; simpl; [exact H|].
  apply IH, nodup_dict_set, H.
Qed.

Lemma collect_inr (off : Z -> Z) (dfs : list frame) (acc : dict) (o o' : list string) (d : dict) :
  collect off dfs acc o = (o', inr d) ->
  exists results,
    Forall2 (fun df r => exists o1 o2, processInfluxDF off df o1 = (o2, inr r)) dfs results /\
    d = fold_left (fun d r => dict_set d (fst r) (snd r)) results acc.
Proof.
  revert acc o. induction dfs as [|df rest IH]; intros acc o; simpl.
  - intros H. apply ret_inv in H. destruct H as [_ ->]. exists []. split; [constructor|reflexivity].
  - intros H. apply bind_inr in H. destruct H as (o1 & r & Hr & H).
    destruct (IH _ _ H) as (results & HF & ->).
    exists (r :: results). split; [|reflexivity].
    constructor; [exists o, o1; exact Hr|exact HF].
Qed.

(** Claim C10: the bundle holds one entry per distinct identifier (its keys
    have no duplicate and are exactly the identifiers produced), and the
    entry of each identifier is the table processed last under it. *)
Theorem bundle_last_writer_wins (off : Z -> Z) (dfs : list frame) (prints : list string) (d : dict) :
  run (collect off dfs []) = (prints, inr d) ->
  exists results,
    Forall2 (fun df r => exists o1 o2, processInfluxDF off df o1 = (o2, inr r)) dfs results /\
    NoDup (keys d) /\
    (forall k, In k (keys d) <-> In k (map fst results)) /\
    (forall k, dict_lookup d k = last_value k results).
Proof.
  unfold run. intros H. apply collect_inr in H. destruct H as (results & HF & ->).
  exists results. split; [exact HF|]. split; [|split].
  - apply nodup_fold. constructor.
  - intros k. rewrite keys_fold. simpl. intuition.
  - intros k. rewrite lookup_fold. reflexivity.
Qed.

Lemma bundle_last_writer_wins_witness :
  exists prints d,
    run (collect utc_offset [sample_frame [10000000000] "0"; sample_frame [20000000000] "0"] [])
      = (prints, inr d) /\
    exists results,
      Forall2 (fun df r => exists o1 o2, processInfluxDF utc_offset df o1 = (o2, inr r))
        [sample_frame [10000000000] "0"; sample_frame [20000000000] "0"] results /\
      NoDup (keys d) /\ (forall k, dict_lookup d k = last_value k results).
Proof.
  destruct (run (collect utc_offset [sample_frame [10000000000] "0"; sample_frame [20000000000] "0"] []))
    as [prints [e|d]] eqn:E; [vm_compute in E; discriminate|].
  exists prints, d. split; [reflexivity|].
  destruct (bundle_last_writer_wins _ _ _ _ E) as (results & HF & Hn & _ & Hl).
  exists results. auto.
Defined.

(** Two groups of [box7]/[P1]: one entry, holding the second group. *)
Example bundle_two_groups_one_entry :
  match run (collect utc_offset [sample_frame [10000000000] "0"; sample_frame [20000000000] "0"] []) with
  | (_, inr d) => keys d = ["box7_P1"] /\
                  option_map (fun df => column_of df "time") (dict_lookup d "box7_P1")
                  = Some (Some [CFloat 20%float])
  | _ => False
  end.
Proof. vm_compute. split; reflexivity. Qed.

End BundleProofs.

(** ** Exporter: dispatch on [os.path.splitext(args.output_file)] *)
Module Exporter.
Import PyStr Frame Bundle.

Fixpoint rfind_aux (c : ascii) (l : list ascii) (i : nat) (best : option nat) : option nat :=
  match l with
  | [] => best
  | a :: rest => rfind_aux c rest (S i) (if Ascii.eqb a c then Some i else best)
  end.

(** [s.rfind(c)], [None] for -1. *)
Definition rfind (c : ascii) (s : string) : option nat :=
  rfind_aux c (list_ascii_of_string s) 0 None.

(** [posixpath.splitext] ([genericpath._splitext] with [sep = '/'] and
    [extsep = '.']): split at the last dot of the last path component unless
    that component is only dots up to it. *)
Definition splitext (p : string) : string * string :=
  let l := list_ascii_of_string p in
  let split_at :=
    match rfind "."%char p with
    | None => None
    | Some dot =>
        let sep := rfind "/"%char p in
        let filename_index := match sep with None => O | Some s => S s end in
        let dot_after_sep := match sep with None => true | Some s => Nat.ltb s dot end in
        if dot_after_sep
           && existsb (fun a => negb (Ascii.eqb a "."%char))
                      (firstn (dot - filename_index)%nat (skipn filename_index l))
        then Some dot else None
    end in
  match split_at with
  | Some d => (string_of_list_ascii (firstn d l), string_of_list_ascii (skipn d l))
  | None => (p, EmptyString)
  end.

(** What a write puts on disk (the serialisers' formats are not modelled). *)
Inductive artifact :=
  | CsvFile (df : frame)          (** [to_csv(header=False, index=False)] *)
  | MatFile (arrays : dict)       (** [savemat] of [df.values] per key *)
  | PickleFile (bundle : dict).   (** [pickle.dump] of the whole dict *)

Inductive effect :=
  | WriteFile (filename : string) (a : artifact)
  | Say (line : string).

(** Lines 165-182, as the effects they perform in order: the writes and
    the confirmations. Failures of the writers themselves are not
    modelled. *)
Definition export (output_file : string) (out_df : dict) : list effect :=
  let (output_name, output_type) := splitext output_file in
  if String.eqb output_type ".csv" then
    concat (map (fun kv =>
      let output_filename := output_name ++ "_" ++ fst kv ++ ".csv" in
      [WriteFile output_filename (CsvFile (snd kv));
       Say ("Saved file " ++ output_filename ++ " successfully.")]) out_df)
  else if String.eqb output_type ".mat" then
    let output_filename := output_name ++ ".mat" in
    [WriteFile output_filename (MatFile out_df);
     Say ("Saved file " ++ output_filename ++ " successfully. Load in matlab.")]
  else if String.eqb output_type ".pickle" then
    let output_filename := output_name ++ ".pickle" in
    [WriteFile output_filename (PickleFile out_df);
     Say (Query.nl ++ "Saved file " ++ output_filename
          ++ " successfully. Serialized as a dictionary of dataframes.")]
  else [].

End Exporter.

Module ExporterProofs.
Import PyStr Frame Bundle Exporter.

(** Claim C7: with an extension other than [.csv], [.mat] and [.pickle] the
    exporter performs no effect: no file written and nothing printed; it is
    the last step of [main], which then returns normally. *)
Theorem export_unknown_extension_noop (output_file : string) (out_df : dict) :
  snd (splitext output_file) <> ".csv" ->
  snd (splitext output_file) <> ".mat" ->
  snd (splitext output_file) <> ".pickle" ->
  export output_file out_df = [].
Proof.
  unfold export. destruct (splitext output_file) as [name ext]. simpl.
  intros H1 H2 H3.
  apply String.eqb_neq in H1, H2, H3. rewrite H1, H2, H3. reflexivity.
Qed.

Lemma export_unknown_extension_noop_witness :
  snd (splitext "data.txt") <> ".csv" /\ snd (splitext "data.txt") <> ".mat" /\
  snd (splitext "data.txt") <> ".pickle" /\ export "data.txt" [] = [].
Proof.
  split; [vm_compute; discriminate|]. split; [vm_compute; discriminate|].
  split; [vm_compute; discriminate|].
  apply export_unknown_extension_noop; vm_compute; discriminate.
Defined.

(** [splitext] on sample paths: a leading-dot name has no extension, so the
    path [.csv] itself falls in the no-op branch. *)
Example splitext_samples :
  splitext "out/data.csv" = ("out/data", ".csv") /\
  splitext "data.tar.mat" = ("data.tar", ".mat") /\
  splitext ".csv" = (".csv", EmptyString) /\
  splitext "dir.v/data" = ("dir.v/data", EmptyString) /\
  export ".csv" [] = [].
Proof. vm_compute. repeat split. Qed.

End ExporterProofs.

(** ** Credentials: [loadInfluxClient] *)
Module Creds.
Import PyM.

(** What [pickle.load] returns: a dict of strings, or another object. *)
Inductive pyobj :=
  | PDict (entries : list (string * string))
  | POther.

(** A filesystem entry at a path. *)
Inductive entry :=
  | File (content : string) (readable : bool)
  | Dir.

Record client := { idb_url : string; idb_token : string; idb_org : string }.

Definition not_found_msg : string :=
  "InfluxDB credentials file not found. Run influxdb-setup.py to generate one.".

(** [d[key]] *)
Definition dict_get (entries : list (string * string)) (key : string) : M string :=
  match find (fun kv => String.eqb (fst kv) key) entries with
  | Some kv => ret (snd kv)
  | None => raise (KeyError key)
  end.

Section Load.
(** [pickle.load] on a file's bytes; [None] is an unpickling failure. *)
Variable pickle_load : string -> option pyobj.

(** [os.path.isfile(p)] *)
Definition isfile (fs : string -> option entry) (p : string) : bool :=
  match fs p with
  | Some (File _ _) => true
  | _ => false
  end.

(** Lines 35-51; [exit(1)] raises [SystemExit(1)], which the interpreter
    turns into exit status 1 without printing a traceback. *)
Definition loadInfluxClient (fs : string -> option entry) (pickle_path : string) : M client :=
  match fs pickle_path with
  | Some (File content readable) =>
      if readable then
        match pickle_load content with
        | None => raise UnpicklingError
        | Some POther => raise TypeError
        | Some (PDict influx_dict) =>
            url <- dict_get influx_dict "idb_url" ;;
            token <- dict_get influx_dict "idb_token" ;;
            org <- dict_get influx_dict "idb_org" ;;
            ret {| idb_url := url; idb_token := token; idb_org := org |}
        end
      else raise OSError
  | _ => print not_found_msg ;;; raise (SystemExit 1)
  end.

End Load.

(** A pickle stand-in for evaluation: the one stored record it knows. *)
Definition sample_pickle (content : string) : option pyobj :=
  if String.eqb content "creds-bytes"
  then Some (PDict [("idb_url", "http://localhost:8086"); ("idb_org", "paros");
                    ("idb_token", "tok")])
  else None.

Definition sample_fs (p : string) : option entry :=
  if String.eqb p "influx-creds.pickle" then Some (File "creds-bytes" true)
  else if String.eqb p "somedir" then Some Dir else None.

End Creds.

Module CredsProofs.
Import PyM Creds NormalizerFacts.

Lemma dict_get_inr (entries : list (string * string)) (key : string) (o o' : list string) (v : string) :
  dict_get entries key o = (o', inr v) -> o' = o.
Proof.
  unfold dict_get. destruct (find _ entries); [|discriminate].
  unfold ret. intros H. injection H as <- _. reflexivity.
Qed.

Lemma dict_get_found (entries : list (string * string)) (key v : string) (o : list string) :
  find (fun kv => String.eqb (fst kv) key) entries = Some (key, v) ->
  dict_get entries key o = (o, inr v).
Proof. unfold dict_get. intros ->. reflexivity. Qed.

(** Claim C8: when the credentials path is not a file, the loader prints its
    message and raises [SystemExit(1)] (exit status 1, no traceback); when
    it is a file, no [SystemExit] occurs, and a readable file holding the
    record with [idb_url], [idb_token] and [idb_org] gives the client built
    from those three values. *)
Theorem loadInfluxClient_exit_iff_missing (pickle_load : string -> option pyobj)
    (fs : string -> option entry) (p : string) :
  (isfile fs p = false ->
   run (loadInfluxClient pickle_load fs p) = ([not_found_msg], inl (SystemExit 1))) /\
  (isfile fs p = true ->
   (forall out code, run (loadInfluxClient pickle_load fs p) <> (out, inl (SystemExit code))) /\
   (forall content entries u t o,
      fs p = Some (File content true) ->
      pickle_load content = Some (PDict entries) ->
      find (fun kv => String.eqb (fst kv) "idb_url") entries = Some ("idb_url", u) ->
      find (fun kv => String.eqb (fst kv) "idb_token") entries = Some ("idb_token", t) ->
      find (fun kv => String.eqb (fst kv) "idb_org") entries = Some ("idb_org", o) ->
      run (loadInfluxClient pickle_load fs p)
        = ([], inr {| idb_url := u; idb_token := t; idb_org := o |}))).
Proof.
  unfold isfile, run, loadInfluxClient. split.
  - destruct (fs p) as [[content readable|]|]; [discriminate| |]; intros _; reflexivity.
  - destruct (fs p) as [[content readable|]|] eqn:Efs; [|discriminate|discriminate]. intros _.
    split.
    + intros out code. destruct readable; [|discriminate].
      destruct (pickle_load content) as [[entries|]|]; try discriminate.
      unfold bind, dict_get.
      destruct (find (fun kv => String.eqb (fst kv) "idb_url") entries); [|discriminate].
      unfold ret.
      destruct (find (fun kv => String.eqb (fst kv) "idb_token") entries); [|discriminate].
      destruct (find (fun kv => String.eqb (fst kv) "idb_org") entries); discriminate.
    + intros content' entries u t o Hfs Hl Hu Ht Ho.
      injection Hfs as E1 E2. subst content readable. rewrite Hl. cbv beta iota.
      unfold bind. rewrite (dict_get_found _ _ _ _ Hu), (dict_get_found _ _ _ _ Ht),
                          (dict_get_found _ _ _ _ Ho).
      reflexivity.
Qed.

Lemma loadInfluxClient_exit_iff_missing_witness :
  isfile sample_fs "missing.pickle" = false /\
  run (loadInfluxClient sample_pickle sample_fs "missing.pickle")
    = ([not_found_msg], inl (SystemExit 1)) /\
  isfile sample_fs "influx-creds.pickle" = true /\
  run (loadInfluxClient sample_pickle sample_fs "influx-creds.pickle")
    = ([], inr {| idb_url := "http://localhost:8086"; idb_token := "tok"; idb_org := "paros" |}).
Proof.
  split; [reflexivity|]. split.
  { apply (proj1 (loadInfluxClient_exit_iff_missing sample_pickle sample_fs "missing.pickle")).
    reflexivity. }
  split; [reflexivity|].
  apply (proj2 (proj2 (loadInfluxClient_exit_iff_missing sample_pickle sample_fs "influx-creds.pickle")
                  eq_refl) "creds-bytes" _ _ _ _ eq_refl eq_refl eq_refl eq_refl eq_refl).
Defined.

End CredsProofs.

(** ** Further properties of the exporter *)
Module ExporterFacts.
Import PyStr Frame Bundle Exporter.
Local Open Scope nat_scope.

Lemma string_of_list_app (a b : list ascii) :
  string_of_list_ascii (a ++ b) = (string_of_list_ascii a ++ string_of_list_ascii b)%string.
Proof. induction a as [|x a IH]; simpl; [reflexivity|]. rewrite IH. reflexivity. Qed.

Lemma list_of_string_app (a b : string) :
  list_ascii_of_string (a ++ b) = (list_ascii_of_string a ++ list_ascii_of_string b)%list.
Proof. induction a as [|x a IH]; simpl; [reflexivity|]. rewrite IH. reflexivity. Qed.

Lemma append_empty_r (s : string) : (s ++ EmptyString)%string = s.
Proof. induction s as [|a s IH]; simpl; [reflexivity|]. rewrite IH. reflexivity. Qed.

Lemma rfind_aux_some (c : ascii) (l : list ascii) (i : nat) (best : option nat) (j : nat) :
  rfind_aux c l i best = Some j ->
  (exists k, j = i + k /\ nth_error l k = Some c /\ ~ In c (skipn (S k) l))
  \/ (best = Some j /\ ~ In c l).
Proof.
  revert i best. induction l as [|a rest IH]; intros i best; simpl.
  - intros ->. right. split; [reflexivity|intros []].
  - intros H. destruct (IH _ _ H) as [(k & -> & Hk & Hn)|[Hb Hn]].
    + left. exists (S k). split; [lia|]. split; assumption.
    + destruct (Ascii.eqb a c) eqn:E.
      * apply Ascii.eqb_eq in E. subst a. injection Hb as <-.
        left. exists 0%nat. split; [lia|]. split; [reflexivity|exact Hn].
      * right. split; [exact Hb|]. intros [->|Hin]; [rewrite Ascii.eqb_refl in E; discriminate|].
        exact (Hn Hin).
Qed.

Lemma rfind_aux_none (c : ascii) (l : list ascii) (i : nat) (best : option nat) :
  rfind_aux c l i best = None -> best = None /\ ~ In c l.
Proof.
  revert i best. induction l as [|a rest IH]; intros i best; simpl.
  - intros ->. split; [reflexivity|intros []].
  - intros H. destruct (IH _ _ H) as [Hb Hn].
    destruct (Ascii.eqb a c) eqn:E; [discriminate|].
    split; [exact Hb|]. intros [->|Hin]; [rewrite Ascii.eqb_refl in E; discriminate|exact (Hn Hin)].
Qed.

Lemma rfind_some (c : ascii) (s : string) (j : nat) :
  rfind c s = Some j ->
  nth_error (list_ascii_of_string s) j = Some c /\ ~ In c (skipn (S j) (list_ascii_of_string s)).
Proof.
  unfold rfind. intros H. destruct (rfind_aux_some _ _ _ _ _ H) as [(k & -> & Hk & Hn)|[Hb _]];
    [simpl; auto|discriminate].
Qed.

Lemma rfind_none (c : ascii) (s : string) :
  rfind c s = None -> ~ In c (list_ascii_of_string s).
Proof. unfold rfind. intros H. exact (proj2 (rfind_aux_none _ _ _ _ H)). Qed.

Lemma skipn_nth (l : list ascii) (d : nat) (x : ascii) :
  nth_error l d = Some x -> skipn d l = x :: skipn (S d) l.
Proof.
  revert d. induction l as [|a l IH]; intros [|d]; simpl; try discriminate.
  - intros H. injection H as ->. reflexivity.
  - apply IH.
Qed.

Lemma in_skipn_in {A} (n : nat) (l : list A) (x : A) : In x (skipn n l) -> In x l.
Proof.
  revert l. induction n as [|n IH]; intros [|a l]; simpl; auto.
Qed.

(** [os.path.splitext] splits without losing anything: root and extension
    concatenate back to the path. *)
Theorem splitext_concat (p : string) :
  (fst (splitext p) ++ snd (splitext p))%string = p.
Proof.
  unfold splitext.
  destruct (match rfind "."%char p with
            | None => None
            | Some dot => _
            end) as [d|]; simpl.
  - rewrite <- string_of_list_app, firstn_skipn. apply string_of_list_ascii_of_string.
  - apply append_empty_r.
Qed.

(** The extension [splitext] returns is empty or a dot followed by
    characters that are neither [.] nor [/]. *)
Theorem splitext_extension_shape (p : string) :
  snd (splitext p) = EmptyString \/
  exists rest, snd (splitext p) = String "."%char rest
               /\ ~ In "."%char (list_ascii_of_string rest)
               /\ ~ In "/"%char (list_ascii_of_string rest).
Proof.
  unfold splitext.
  destruct (rfind "."%char p) as [dot|] eqn:Ed; [|left; reflexivity].
  destruct (rfind "/"%char p) as [sep|] eqn:Es; simpl;
    [destruct (Nat.ltb sep dot) eqn:Elt|]; simpl;
    match goal with
    | |- context [if ?b then _ else _] => destruct b
    | _ => idtac
    end; simpl; try (left; reflexivity).
  - right. destruct (rfind_some _ _ _ Ed) as [Hn Hnd].
    destruct (rfind_some _ _ _ Es) as [_ Hns].
    rewrite (skipn_nth _ _ _ Hn). simpl.
    exists (string_of_list_ascii (skipn (S dot) (list_ascii_of_string p))).
    rewrite list_ascii_of_string_of_list_ascii. split; [reflexivity|]. split; [exact Hnd|].
    intros Hin. apply Hns. apply Nat.ltb_lt in Elt.
    replace (S dot) with ((S dot - S sep) + S sep)%nat in Hin by lia.
    rewrite <- skipn_skipn in Hin. exact (in_skipn_in _ _ _ Hin).
  - right. destruct (rfind_some _ _ _ Ed) as [Hn Hnd].
    pose proof (rfind_none _ _ Es) as Hns.
    rewrite (skipn_nth _ _ _ Hn). simpl.
    exists (string_of_list_ascii (skipn (S dot) (list_ascii_of_string p))).
    rewrite list_ascii_of_string_of_list_ascii. split; [reflexivity|]. split; [exact Hnd|].
    intros Hin. apply Hns. exact (in_skipn_in _ _ _ Hin).
Qed.

(** The files an effect list writes, in order. *)
Fixpoint writes (es : list effect) : list (string * artifact) :=
  match es with
  | [] => []
  | WriteFile f a :: rest => (f, a) :: writes rest
  | Say _ :: rest => writes rest
  end.

Lemma writes_pairs (g : string * frame -> string) (h : string * frame -> artifact)
    (m : string * frame -> string) (l : dict) :
  writes (concat (map (fun kv => [WriteFile (g kv) (h kv); Say (m kv)]) l))
  = map (fun kv => (g kv, h kv)) l.
Proof. induction l as [|kv l IH]; simpl; [reflexivity|]. rewrite IH. reflexivity. Qed.

Lemma string_app_inv_head (a x y : string) : (a ++ x)%string = (a ++ y)%string -> x = y.
Proof. induction a as [|c a IH]; simpl; [auto|]. intros H. injection H. exact IH. Qed.

Lemma string_app_inv_tail (x y s : string) : (x ++ s)%string = (y ++ s)%string -> x = y.
Proof.
  intros H. apply (f_equal list_ascii_of_string) in H. rewrite !list_of_string_app in H.
  apply app_inv_tail in H. apply (f_equal string_of_list_ascii) in H.
  rewrite !string_of_list_ascii_of_string in H. exact H.
Qed.

Lemma csv_name_inj (root k1 k2 : string) :
  (root ++ "_" ++ k1 ++ ".csv")%string = (root ++ "_" ++ k2 ++ ".csv")%string -> k1 = k2.
Proof.
  intros H. apply string_app_inv_head in H. apply string_app_inv_head in H.
  exact (string_app_inv_tail _ _ _ H).
Qed.

Lemma nodup_map_inj {A B} (f : A -> B) (l : list A) :
  (forall x y, In x l -> In y l -> f x = f y -> x = y) -> NoDup l -> NoDup (map f l).
Proof.
  induction l as [|a l IH]; simpl; intros Hf Hn; [constructor|].
  inversion Hn as [|? ? Ha Hl]; subst. constructor.
  - intros Hin. apply in_map_iff in Hin. destruct Hin as [y [Hy Hin]].
    apply Ha. rewrite <- (Hf y a (or_intror Hin) (or_introl eq_refl) Hy). exact Hin.
  - apply IH; [|exact Hl]. intros x y Hx Hy. apply Hf; right; assumption.
Qed.

(** A [.csv] output path writes one file per bundle entry, in bundle order,
    named [<root>_<identifier>.csv] and holding that entry's table; with
    distinct identifiers the file names are distinct, so no file is
    overwritten. *)
Theorem export_csv_one_file_per_entry (output_file root : string) (out_df : dict) :
  splitext output_file = (root, ".csv") ->
  writes (export output_file out_df)
    = map (fun kv => ((root ++ "_" ++ fst kv ++ ".csv")%string, CsvFile (snd kv))) out_df /\
  (NoDup (keys out_df) -> NoDup (map fst (writes (export output_file out_df)))).
Proof.
  intros Hs.
  assert (Hw : writes (export output_file out_df)
    = map (fun kv => ((root ++ "_" ++ fst kv ++ ".csv")%string, CsvFile (snd kv))) out_df).
  { unfold export. rewrite Hs. cbv iota beta. rewrite String.eqb_refl. cbv iota beta.
    apply writes_pairs. }
  rewrite Hw. split; [reflexivity|].
  intros Hn.
  assert (Hk : map fst (map (fun kv => ((root ++ "_" ++ fst kv ++ ".csv")%string, CsvFile (snd kv))) out_df)
               = map (fun k => (root ++ "_" ++ k ++ ".csv")%string) (keys out_df)).
  { unfold keys. rewrite !map_map. reflexivity. }
  rewrite Hk.
  apply nodup_map_inj; [|exact Hn].
  intros x y _ _. apply csv_name_inj.
Qed.

Lemma export_csv_one_file_per_entry_witness :
  splitext "out/data.csv" = ("out/data", ".csv") /\
  NoDup (keys [("box7_P1", []); ("box8_P2", [])]) /\
  NoDup (map fst (writes (export "out/data.csv" [("box7_P1", []); ("box8_P2", [])]))).
Proof.
  split; [vm_compute; reflexivity|].
  assert (Hn : NoDup (keys [("box7_P1", []); ("box8_P2", [])])).
  { vm_compute. constructor; [intros [H|[]]; discriminate|constructor; [intros []|constructor]]. }
  split; [exact Hn|].
  exact (proj2 (export_csv_one_file_per_entry "out/data.csv" "out/data" _
                  ltac:(vm_compute; reflexivity)) Hn).
Defined.



End ExporterFacts.

(** ** Further properties of the normalizer *)
Module NormalizerEdges.
Import PyM Frame Normalizer NormalizerFacts NormalizerProofs.
Open Scope Z_scope.

Lemma bind_fail_now {A B} (m : M A) (k : A -> M B) (o : list string) (e : exn) :
  m o = (o, inl e) -> bind m k o = (o, inl e).
Proof. unfold bind. intros ->. reflexivity. Qed.

(** A step that prints nothing, followed by steps that all fail without
    printing, fails without printing. *)
Lemma bind_silent_fail {A B} (m : M A) (k : A -> M B) (o : list string) :
  (forall o', fst (m o') = o') ->
  (forall a, exists e, k a o = (o, inl e)) ->
  exists e, bind m k o = (o, inl e).
Proof.
  intros Hm Hk. unfold bind. specialize (Hm o).
  destruct (m o) as [o1 [e|a]]; simpl in Hm; subst o1; [exists e; reflexivity|].
  exact (Hk a).
Qed.

Lemma getcol_silent (df : frame) (l : string) (o : list string) : fst (getcol df l o) = o.
Proof. unfold getcol. destruct (filter _ df) as [|x [|y t]]; reflexivity. Qed.

Lemma iloc0_silent (c : column) (o : list string) : fst (iloc0 c o) = o.
Proof. destruct c; reflexivity. Qed.

Lemma str_cell_silent (v : cell) (o : list string) : fst (str_cell v o) = o.
Proof. destruct v; reflexivity. Qed.

Lemma find_some_of_in {A} (f : A -> bool) (l : list A) (x : A) :
  In x l -> f x = true -> exists y, find f l = Some y.
Proof.
  induction l as [|a l IH]; simpl; [intros []|].
  intros [->|Hin] Hx; [rewrite Hx; eexists; reflexivity|].
  destruct (f a); [eexists; reflexivity|]. exact (IH Hin Hx).
Qed.

(** A raw table lacking one of [result], [table], [_measurement], [id]
    makes the normalizer raise before it prints anything. *)
Theorem processInfluxDF_missing_base_column (off : Z -> Z) (df : frame) (l : string) :
  In l base_labels -> has_col df l = false ->
  exists e, run (processInfluxDF off df) = ([], inl e).
Proof.
  intros Hl Hc. unfold run, processInfluxDF.
  apply bind_silent_fail; [apply getcol_silent|]. intros mcol.
  apply bind_silent_fail; [apply iloc0_silent|]. intros bc.
  apply bind_silent_fail; [apply getcol_silent|]. intros icol.
  apply bind_silent_fail; [apply iloc0_silent|]. intros ic.
  apply bind_silent_fail; [apply str_cell_silent|]. intros cb.
  apply bind_silent_fail; [apply str_cell_silent|]. intros ci.
  cbv zeta.
  destruct (find_some_of_in (fun l => negb (has_col df l)) base_labels l Hl)
    as [y Hy]; [rewrite Hc; reflexivity|].
  unfold base_labels in Hy.
  eexists. apply bind_fail_now. unfold drop. rewrite Hy. reflexivity.
Qed.

Lemma processInfluxDF_missing_base_column_witness :
  exists e, run (processInfluxDF utc_offset (tl (sample_frame [10000000000] "0"))) = ([], inl e).
Proof.
  apply (processInfluxDF_missing_base_column utc_offset _ "result"); [left; reflexivity|].
  vm_compute. reflexivity.
Defined.

Lemma filter_single_has_col (d : frame) (l : string) (x : string * column) :
  filter (fun c => String.eqb (fst c) l) d = [x] -> has_col d l = true.
Proof.
  intros H. unfold has_col. apply existsb_exists. exists x.
  assert (Hx : In x (filter (fun c => String.eqb (fst c) l) d)) by (rewrite H; left; reflexivity).
  apply filter_In in Hx. exact Hx.
Qed.

Lemma has_col_rename (d : frame) (a b : string) :
  has_col (rename d a b) b = has_col d a || has_col d b.
Proof.
  induction d as [|c d IH]; simpl; [reflexivity|].
  destruct (String.eqb (fst c) a) eqn:Ea; simpl.
  - rewrite String.eqb_refl. reflexivity.
  - rewrite IH. destruct (String.eqb (fst c) b), (has_col d a), (has_col d b); reflexivity.
Qed.

Lemma has_col_stripped_time (df : frame) :
  has_col (stripped df) "time" = has_col df "_time" || has_col df "time".
Proof.
  unfold stripped. rewrite has_col_rename.
  rewrite !has_col_kept; [reflexivity| |unfold base_labels| |unfold base_labels|..];
    simpl; intuition discriminate.
Qed.

(** The normalizer reads its time column from [_time] (or an existing
    [time]); a raw table with neither raises. *)
Theorem processInfluxDF_missing_time_raises (off : Z -> Z) (df : frame) :
  has_col df "_time" = false -> has_col df "time" = false ->
  exists prints e, run (processInfluxDF off df) = (prints, inl e).
Proof.
  intros H1 H2. unfold run.
  destruct (processInfluxDF off df []) as [w [e|[ids out]]] eqn:H; [eauto|exfalso].
  apply process_inr in H.
  destruct H as (box_c & mrest & id_c & irest & cur_box & cur_id & t0 & t1 & t2 & t3 & _ & _ & _ & _ & _ & _ & Ht & _).
  apply filter_single_has_col in Ht. rewrite has_col_stripped_time, H1, H2 in Ht. discriminate.
Qed.

Lemma processInfluxDF_missing_time_raises_witness :
  exists prints e,
    run (processInfluxDF utc_offset (filter (fun c => negb (String.eqb (fst c) "_time"))
                                            (sample_frame [10000000000] "0"))) = (prints, inl e).
Proof. apply processInfluxDF_missing_time_raises; vm_compute; reflexivity. Defined.

Lemma filter_rename_target (d : frame) (a b : string) :
  has_col d b = false ->
  filter (fun c => String.eqb (fst c) b) (rename d a b)
  = map (fun c => (b, snd c)) (filter (fun c => String.eqb (fst c) a) d).
Proof.
  induction d as [|c d IH]; simpl; [reflexivity|].
  destruct (String.eqb (fst c) b) eqn:Eb; simpl; [discriminate|]. intros H.
  destruct (String.eqb (fst c) a) eqn:Ea; simpl.
  - rewrite String.eqb_refl, (IH H). reflexivity.
  - rewrite Eb. exact (IH H).
Qed.

Lemma filter_time_stripped (df : frame) :
  has_col df "time" = false ->
  filter (fun c => String.eqb (fst c) "time") (stripped df)
  = map (fun c => ("time", snd c)) (filter (fun c => String.eqb (fst c) "_time") df).
Proof.
  intros H. unfold stripped. rewrite filter_rename_target.
  - rewrite stripped_filters, filter_filter_and. f_equal. apply filter_ext. intros c.
    destruct (String.eqb (fst c) "_time") eqn:E; [|apply andb_false_r].
    apply String.eqb_eq in E. unfold kept. rewrite E. reflexivity.
  - rewrite !has_col_kept; [exact H| |unfold base_labels|]; simpl; intuition discriminate.
Qed.

Lemma Forall2_in_l {A B} (R : A -> B -> Prop) (l1 : list A) (l2 : list B) (x : A) :
  Forall2 R l1 l2 -> In x l1 -> exists y, R x y.
Proof.
  induction 1 as [|a b l1 l2 Hab _ IH]; simpl; [intros []|].
  intros [->|Hin]; [exists b; exact Hab|exact (IH Hin)].
Qed.

Definition is_aware (c : cell) : bool :=
  match c with
  | CAware _ _ => true
  | _ => false
  end.

Lemma tz_convert_aware (off : Z -> Z) (c c' : cell) :
  tz_convert_cell off c = inr c' -> is_aware c = true.
Proof. destruct c; simpl; try discriminate. reflexivity. Qed.

(** [tz_convert] only accepts tz-aware timestamps: a [_time] column holding
    a naive timestamp, or anything that is not a timestamp, makes the
    normalizer raise. *)
Theorem processInfluxDF_naive_time_raises (off : Z -> Z) (df : frame) (t : column) (c : cell) :
  column_of df "_time" = Some t -> has_col df "time" = false ->
  In c t -> is_aware c = false ->
  exists prints e, run (processInfluxDF off df) = (prints, inl e).
Proof.
  intros Ht Hn Hc Ha. unfold run.
  destruct (processInfluxDF off df []) as [w [e|[ids out]]] eqn:H; [eauto|exfalso].
  apply process_inr in H.
  destruct H as (box_c & mrest & id_c & irest & cur_box & cur_id & t0 & t1 & t2 & t3 & _ & _ & _ & _ & _ & _ & Hf & Hc1 & _).
  rewrite (filter_time_stripped df Hn) in Hf.
  unfold column_of in Ht.
  destruct (filter (fun c => String.eqb (fst c) "_time") df) as [|x [|y r]]; try discriminate.
  injection Ht as Ht. simpl in Hf. injection Hf as Hf. subst t0 t.
  apply traverse_forall2 in Hc1.
  destruct (Forall2_in_l _ _ _ c Hc1 Hc) as [c' Hc']. apply tz_convert_aware in Hc'. congruence.
Qed.

Lemma processInfluxDF_naive_time_raises_witness :
  exists prints e,
    run (processInfluxDF utc_offset
           (setcol (sample_frame [10000000000] "0") "_time" [CNaive 10000000000])) = (prints, inl e).
Proof.
  apply (processInfluxDF_naive_time_raises utc_offset _ [CNaive 10000000000] (CNaive 10000000000));
    [vm_compute; reflexivity|vm_compute; reflexivity|left; reflexivity|reflexivity].
Defined.

Lemma Forall_filter_keep {A} (P : A -> Prop) (f : A -> bool) (l : list A) :
  Forall P l -> Forall P (filter f l).
Proof.
  rewrite !Forall_forall. intros H x Hx. apply filter_In in Hx. exact (H x (proj1 Hx)).
Qed.

Lemma Forall_rename (n : nat) (d : frame) (a b : string) :
  Forall (fun c => length (snd c) = n) d -> Forall (fun c => length (snd c) = n) (rename d a b).
Proof.
  unfold rename. rewrite Forall_map. apply Forall_impl. intros c Hc.
  destruct (String.eqb (fst c) a); exact Hc.
Qed.

Lemma Forall_setcol (n : nat) (d : frame) (l : string) (t : column) :
  length t = n ->
  Forall (fun c => length (snd c) = n) d -> Forall (fun c => length (snd c) = n) (setcol d l t).
Proof.
  intros Ht. unfold setcol. rewrite Forall_map. apply Forall_impl. intros c Hc.
  destruct (String.eqb (fst c) l); [exact Ht|exact Hc].
Qed.

Lemma traverse_length (f : cell -> exn + cell) (a b : column) :
  traverse f a = inr b -> length b = length a.
Proof. intros H. symmetry. exact (Forall2_length (traverse_forall2 f a b H)). Qed.

(** The normalizer keeps the table rectangular and never adds or drops a
    row: if every column of the raw table has [n] cells, so has every
    column of the normalised one. *)
Theorem processInfluxDF_row_count (off : Z -> Z) (df : frame) (n : nat)
    (prints : list string) (ids : string) (out : frame) :
  Forall (fun c => length (snd c) = n) df ->
  run (processInfluxDF off df) = (prints, inr (ids, out)) ->
  Forall (fun c => length (snd c) = n) out.
Proof.
  intros Hn H. unfold run in H. apply process_inr in H.
  destruct H as (box_c & mrest & id_c & irest & cur_box & cur_id & t0 & t1 & t2 & t3 & _ & _ & _ & _ & _ & _ & Hf & H1 & H2 & H3 & ->).
  assert (Hs : Forall (fun c => length (snd c) = n) (stripped df)).
  { unfold stripped. apply Forall_rename. do 3 apply Forall_filter_keep. exact Hn. }
  assert (Ht0 : length t0 = n).
  { assert (Hin : In ("time", t0) (stripped df)).
    { assert (Hx : In ("time", t0) (filter (fun x => String.eqb (fst x) "time") (stripped df)))
        by (rewrite Hf; left; reflexivity).
      apply filter_In in Hx. exact (proj1 Hx). }
    rewrite Forall_forall in Hs. exact (Hs _ Hin). }
  apply traverse_length in H1, H2, H3.
  repeat apply Forall_setcol; try lia; exact Hs.
Qed.

Lemma processInfluxDF_row_count_witness :
  Forall (fun c => length (snd c) = 2%nat) (sample_frame [10000000000; 20000000000] "0") /\
  exists prints ids out,
    run (processInfluxDF utc_offset (sample_frame [10000000000; 20000000000] "0"))
      = (prints, inr (ids, out)) /\ Forall (fun c => length (snd c) = 2%nat) out.
Proof.
  assert (Hf : Forall (fun c => length (snd c) = 2%nat) (sample_frame [10000000000; 20000000000] "0"))
    by (repeat constructor).
  split; [exact Hf|].
  destruct (run (processInfluxDF utc_offset (sample_frame [10000000000; 20000000000] "0")))
    as [w [e|[ids out]]] eqn:H.
  - vm_compute in H. discriminate.
  - exists w, ids, out. split; [reflexivity|]. exact (processInfluxDF_row_count _ _ _ _ _ _ Hf H).
Defined.

(** What a run prints does not depend on what was printed before it, and
    neither does its outcome. *)
Definition log_indep {A} (m : M A) : Prop :=
  forall o, m o = (app o (fst (m [])), snd (m [])).

Lemma li_ret {A} (a : A) : log_indep (ret a).
Proof. intros o. unfold ret. simpl. rewrite app_nil_r. reflexivity. Qed.

Lemma li_raise {A} (e : exn) : log_indep (A := A) (raise e).
Proof. intros o. unfold raise. simpl. rewrite app_nil_r. reflexivity. Qed.

Lemma li_print (s : string) : log_indep (print s).
Proof. intros o. reflexivity. Qed.

Lemma li_bind {A B} (m : M A) (k : A -> M B) :
  log_indep m -> (forall a, log_indep (k a)) -> log_indep (bind m k).
Proof.
  intros Hm Hk o. unfold bind. rewrite (Hm o).
  destruct (m []) as [w [e|a]]; simpl; [reflexivity|].
  rewrite (Hk a (app o w)), (Hk a w). simpl. rewrite app_assoc. reflexivity.
Qed.

Ltac log_indep_steps :=
  repeat first
    [ apply li_ret | apply li_raise | apply li_print
    | apply li_bind; intros
    | progress cbv zeta
    | progress unfold getcol
    | match goal with
      | |- log_indep (match ?x with _ => _ end) => destruct x
      | |- log_indep (if ?b then _ else _) => destruct b
      end ].

Lemma processInfluxDF_log_indep (off : Z -> Z) (df : frame) :
  log_indep (processInfluxDF off df).
Proof.
  unfold processInfluxDF, getcol, iloc0, str_cell, drop, update_time.
  log_indep_steps.
Qed.

End NormalizerEdges.

(** ** The result bundle is all or nothing *)
Module BundleEdges.
Import PyM Frame Normalizer NormalizerFacts NormalizerEdges Bundle BundleProofs.

(** One table the normalizer rejects makes the whole collection loop raise:
    no partial bundle is ever returned. *)
Theorem collect_all_or_nothing (off : Z -> Z) (dfs : list frame) (acc : dict) (df : frame) (e : exn) :
  In df dfs -> snd (run (processInfluxDF off df)) = inl e ->
  exists prints e', run (collect off dfs acc) = (prints, inl e').
Proof.
  intros Hin He. unfold run in *.
  destruct (collect off dfs acc []) as [w [e'|d]] eqn:H; [eauto|exfalso].
  apply collect_inr in H. destruct H as (results & HF & _).
  destruct (Forall2_in_l _ _ _ df HF Hin) as (r & o1 & o2 & Hr).
  rewrite (processInfluxDF_log_indep off df o1), He in Hr. discriminate.
Qed.

Lemma collect_all_or_nothing_witness :
  exists prints e',
    run (collect utc_offset [sample_frame [10000000000] "0"; tl (sample_frame [10000000000] "0")] [])
      = (prints, inl e').
Proof.
  apply (collect_all_or_nothing utc_offset _ [] (tl (sample_frame [10000000000] "0")) (KeyError "result"));
    [right; left; reflexivity|vm_compute; reflexivity].
Defined.

End BundleEdges.

(** ** influxdb-setup.py

    [main] runs on a state holding what was printed (prompts included, one
    item per [print] or [input] call), the lines left on standard input and
    the filesystem; [input] at the end of standard input raises [EOFError].
    [pickle.load] and [pickle.dump] are parameters. *)
Module Setup.
Import Creds.

Inductive serr :=
  | SExn (e : PyM.exn)
  | EOFError.

Record state := mkState { sout : list string; sin : list string; sfs : string -> option entry }.

Definition SM (A : Type) := state -> state * (serr + A).

Definition sret {A} (a : A) : SM A := fun st => (st, inr a).
Definition sraise {A} (e : serr) : SM A := fun st => (st, inl e).
Definition sbind {A B} (m : SM A) (k : A -> SM B) : SM B :=
  fun st => match m st with
            | (st', inl e) => (st', inl e)
            | (st', inr a) => k a st'
            end.

Notation "x <- m ;; k" := (sbind m (fun x => k)) (at level 61, m at next level, right associativity).
Notation "m ;;; k" := (sbind m (fun _ => k)) (at level 61, right associativity).

Definition sprint (s : string) : SM unit :=
  fun st => (mkState (app (sout st) [s]) (sin st) (sfs st), inr tt).

(** [input(prompt)] *)
Definition input (prompt : string) : SM string :=
  fun st => match sin st with
            | [] => (mkState (app (sout st) [prompt]) [] (sfs st), inl EOFError)
            | l :: rest => (mkState (app (sout st) [prompt]) rest (sfs st), inr l)
            end.

(** A step of the printing monad [PyM.M] run inside [main]. *)
Definition lift {A} (m : PyM.M A) : SM A :=
  fun st => match m (sout st) with
            | (o, inl e) => (mkState o (sin st) (sfs st), inl (SExn e))
            | (o, inr a) => (mkState o (sin st) (sfs st), inr a)
            end.

Definition fs_set (fs : string -> option entry) (p : string) (e : entry) : string -> option entry :=
  fun q => if String.eqb q p then Some e else fs q.

Definition creds_file : string := "influx-creds.pickle".

Definition prompt_text (label cur : string) : string :=
  ("Enter InfluxDB " ++ label ++ " [" ++ cur ++ "]: ")%string.

Definition missing_text (label : string) : string :=
  ("InfluxDB " ++ label ++ " must be specified")%string.

Definition saved_msg : string :=
  ("Saved file " ++ creds_file ++ " successfully. Re-run this script anytime you need to update it")%string.

Section Main.
Variable pickle_load : string -> option pyobj.
Variable pickle_dump : list (string * string) -> string.

(** Lines 7-18: the current values, from an existing file or empty. *)
Definition read_existing : SM (string * string * string) :=
  fun st =>
    match sfs st creds_file with
    | Some (File content readable) =>
        if readable then
          match pickle_load content with
          | None => sraise (SExn PyM.UnpicklingError) st
          | Some POther => sraise (SExn PyM.TypeError) st
          | Some (PDict existing_dict) =>
              (cur_url <- lift (dict_get existing_dict "idb_url") ;;
               cur_org <- lift (dict_get existing_dict "idb_org") ;;
               cur_token <- lift (dict_get existing_dict "idb_token") ;;
               sret (cur_url, cur_org, cur_token)) st
          end
        else sraise (SExn PyM.OSError) st
    | _ => sret (EmptyString, EmptyString, EmptyString) st
    end.

(** One of the loops of lines 20-45; each round reads one line, so
    [S (length stdin)] rounds reach the end of the input. *)
Fixpoint ask_loop (fuel : nat) (label cur : string) : SM string :=
  match fuel with
  | O => sraise EOFError
  | S f =>
      v <- input (prompt_text label cur) ;;
      if String.eqb v EmptyString then
        (if String.eqb cur EmptyString
         then sprint (missing_text label) ;;; ask_loop f label cur
         else sret cur)
      else sret v
  end.

Definition ask (label cur : string) : SM string :=
  fun st => ask_loop (S (length (sin st))) label cur st.

(** [with open(p, "wb") as f: pickle.dump(...)]; a directory at [p] makes
    [open] raise. *)
Definition write_file (p content : string) : SM unit :=
  fun st =>
    match sfs st p with
    | Some Dir => (st, inl (SExn PyM.OSError))
    | _ => (mkState (sout st) (sin st) (fs_set (sfs st) p (File content true)), inr tt)
    end.

Definition creds_dict (url org token : string) : list (string * string) :=
  [("idb_url", url); ("idb_org", org); ("idb_token", token)].

(** Lines 4-55 *)
Definition main : SM unit :=
  cur <- read_existing ;;
  let '(cur_url, cur_org, cur_token) := cur in
  url <- ask "URL" cur_url ;;
  org <- ask "Org" cur_org ;;
  token <- ask "Token" cur_token ;;
  write_file creds_file (pickle_dump (creds_dict url org token)) ;;;
  sprint saved_msg.

End Main.

(** A pickle stand-in that round-trips every dict of strings, for
    evaluation: each character is prefixed with [+], each string ends
    with [;]. *)
Fixpoint enc_str (s : string) : string :=
  match s with
  | EmptyString => ";"
  | String c r => String "+" (String c (enc_str r))
  end.

Definition enc_dict (d : list (string * string)) : string :=
  fold_right (fun kv acc => (enc_str (fst kv) ++ enc_str (snd kv) ++ acc)%string) EmptyString d.

Fixpoint dec_str (s : string) : option (string * string) :=
  match s with
  | EmptyString => None
  | String c r =>
      if Ascii.eqb c "+" then
        match r with
        | EmptyString => None
        | String c' r' => match dec_str r' with
                          | Some (x, rest) => Some (String c' x, rest)
                          | None => None
                          end
        end
      else if Ascii.eqb c ";" then Some (EmptyString, r) else None
  end.

Fixpoint dec_dict (fuel : nat) (s : string) : option (list (string * string)) :=
  match s with
  | EmptyString => Some []
  | _ => match fuel with
         | O => None
         | S f => match dec_str s with
                  | Some (k, r) => match dec_str r with
                                   | Some (v, r') => match dec_dict f r' with
                                                     | Some d => Some ((k, v) :: d)
                                                     | None => None
                                                     end
                                   | None => None
                                   end
                  | None => None
                  end
         end
  end.

Definition dec_pickle (s : string) : option pyobj :=
  match dec_dict (String.length s) s with
  | Some d => Some (PDict d)
  | None => None
  end.

Definition empty_fs (_ : string) : option entry := None.

End Setup.

Module SetupProofs.
Import Creds CredsProofs Setup.

Lemma sbind_inr {A B} (m : SM A) (k : A -> SM B) (st st2 : state) (b : B) :
  sbind m k st = (st2, inr b) -> exists st1 a, m st = (st1, inr a) /\ k a st1 = (st2, inr b).
Proof.
  unfold sbind. destruct (m st) as [st1 [e|a]]; [discriminate|]. intros H. eauto.
Qed.

(** Steps that leave the filesystem alone. *)
Definition keeps_fs {A} (m : SM A) : Prop :=
  forall st st' r, m st = (st', r) -> sfs st' = sfs st.

Lemma keeps_fs_bind {A B} (m : SM A) (k : A -> SM B) :
  keeps_fs m -> (forall a, keeps_fs (k a)) -> keeps_fs (sbind m k).
Proof.
  intros Hm Hk st st' r. unfold sbind.
  destruct (m st) as [st1 [e|a]] eqn:E; intros H.
  - injection H as <- _. exact (Hm _ _ _ E).
  - rewrite (Hk a _ _ _ H). exact (Hm _ _ _ E).
Qed.

Lemma keeps_fs_ret {A} (a : A) : keeps_fs (sret a).
Proof. intros st st' r H. injection H as <- _. reflexivity. Qed.

Lemma keeps_fs_raise {A} (e : serr) : keeps_fs (A := A) (sraise e).
Proof. intros st st' r H. injection H as <- _. reflexivity. Qed.

Lemma keeps_fs_print (s : string) : keeps_fs (sprint s).
Proof. intros st st' r H. injection H as <- _. reflexivity. Qed.

Lemma keeps_fs_input (p : string) : keeps_fs (input p).
Proof.
  intros st st' r. unfold input. destruct (sin st); intros H; injection H as <- _; reflexivity.
Qed.

Lemma keeps_fs_lift {A} (m : PyM.M A) : keeps_fs (lift m).
Proof.
  intros st st' r. unfold lift. destruct (m (sout st)) as [o [e|a]]; intros H; injection H as <- _;
    reflexivity.
Qed.

Lemma keeps_fs_ask_loop (fuel : nat) (label cur : string) : keeps_fs (ask_loop fuel label cur).
Proof.
  induction fuel as [|f IH]; simpl; [apply keeps_fs_raise|].
  apply keeps_fs_bind; [apply keeps_fs_input|]. intros v.
  destruct (String.eqb v EmptyString); [destruct (String.eqb cur EmptyString)|];
    try apply keeps_fs_ret.
  apply keeps_fs_bind; [apply keeps_fs_print|]. intros _. exact IH.
Qed.

Lemma keeps_fs_ask (label cur : string) : keeps_fs (ask label cur).
Proof. intros st st' r H. exact (keeps_fs_ask_loop _ _ _ st st' r H). Qed.

Lemma keeps_fs_read_existing (pickle_load : string -> option pyobj) :
  keeps_fs (read_existing pickle_load).
Proof.
  intros st st' r. unfold read_existing.
  destruct (sfs st creds_file) as [[content [|]|]|]; try apply keeps_fs_ret; try apply keeps_fs_raise.
  destruct (pickle_load content) as [[d|]|]; try apply keeps_fs_raise.
  repeat (apply keeps_fs_bind; [apply keeps_fs_lift|intros]). apply keeps_fs_ret.
Qed.

(** Every value the prompts of lines 20-45 settle on is non-empty, and it is
    the current value or a line the user typed. *)
Lemma ask_loop_sound (fuel : nat) (label cur : string) (st st' : state) (v : string) :
  ask_loop fuel label cur st = (st', inr v) ->
  v <> EmptyString /\ (v = cur \/ In v (sin st)).
Proof.
  revert st. induction fuel as [|f IH]; intros st; simpl; [discriminate|].
  unfold sbind at 1, input. destruct (sin st) as [|l rest] eqn:Ein; [discriminate|].
  destruct (String.eqb l EmptyString) eqn:El.
  - destruct (String.eqb cur EmptyString) eqn:Ec.
    + unfold sbind, sprint. intros H. apply IH in H. simpl in H.
      destruct H as [Hv [Hc|Hin]]; split; auto; right; simpl; auto.
    + unfold sret. intros H. injection H as _ <-. split; [apply String.eqb_neq, Ec|left; reflexivity].
  - unfold sret. intros H. injection H as _ <-.
    split; [apply String.eqb_neq, El|right; left; reflexivity].
Qed.

(** A successful run of setup stores three non-empty values in
    [influx-creds.pickle], touches no other path, and, with a pickle that
    round-trips dicts of strings, [loadInfluxClient] of get-paros-data.py
    reads back exactly those three values. *)
Theorem setup_then_load (pickle_load : string -> option pyobj)
    (pickle_dump : list (string * string) -> string) (st st' : state) :
  (forall d, pickle_load (pickle_dump d) = Some (PDict d)) ->
  main pickle_load pickle_dump st = (st', inr tt) ->
  exists url org token,
    url <> EmptyString /\ org <> EmptyString /\ token <> EmptyString /\
    sfs st' creds_file = Some (File (pickle_dump (creds_dict url org token)) true) /\
    (forall p, p <> creds_file -> sfs st' p = sfs st p) /\
    (forall o, loadInfluxClient pickle_load (sfs st') creds_file o
               = (o, inr {| idb_url := url; idb_token := token; idb_org := org |})).
Proof.
  intros Hrt H. unfold main in H.
  apply sbind_inr in H. destruct H as (st1 & [[cu co] ct] & H1 & H). cbv beta iota in H.
  apply sbind_inr in H. destruct H as (st2 & url & H2 & H).
  apply sbind_inr in H. destruct H as (st3 & org & H3 & H).
  apply sbind_inr in H. destruct H as (st4 & token & H4 & H).
  apply sbind_inr in H. destruct H as (st5 & [] & H5 & H).
  pose proof (keeps_fs_read_existing _ _ _ _ H1) as F1.
  pose proof (keeps_fs_ask _ _ _ _ _ H2) as F2.
  pose proof (keeps_fs_ask _ _ _ _ _ H3) as F3.
  pose proof (keeps_fs_ask _ _ _ _ _ H4) as F4.
  pose proof (keeps_fs_print _ _ _ _ H) as F6.
  apply ask_loop_sound in H2, H3, H4.
  unfold write_file in H5. destruct (sfs st4 creds_file) as [[c r|]|] eqn:Ed;
    try (injection H5 as <-); try discriminate;
  exists url, org, token;
  (split; [tauto|]); (split; [tauto|]); (split; [tauto|]);
  assert (Hfs : sfs st' = fs_set (sfs st) creds_file (File (pickle_dump (creds_dict url org token)) true))
    by (rewrite F6; simpl; congruence);
  rewrite Hfs; unfold fs_set; rewrite String.eqb_refl;
  (split; [reflexivity|]);
  (split; [intros p Hp; apply String.eqb_neq in Hp; rewrite Hp; reflexivity|]);
  intros o; unfold loadInfluxClient; rewrite String.eqb_refl, Hrt; reflexivity.
Qed.

Lemma str_length_app (s1 s2 : string) :
  String.length (s1 ++ s2) = (String.length s1 + String.length s2)%nat.
Proof. induction s1 as [|c s1 IH]; simpl; [reflexivity|]. rewrite IH. reflexivity. Qed.

Lemma dec_enc_str (s rest : string) : dec_str (enc_str s ++ rest) = Some (s, rest).
Proof. induction s as [|c s IH]; simpl; [reflexivity|]. rewrite IH. reflexivity. Qed.

Lemma enc_str_cons (s rest : string) : exists c s', (enc_str s ++ rest)%string = String c s'.
Proof. destruct s; simpl; eauto. Qed.

Lemma length_enc_dict (d : list (string * string)) : (length d <= String.length (enc_dict d))%nat.
Proof.
  induction d as [|[k v] d IH]; simpl; [lia|].
  rewrite !str_length_app. destruct k; simpl; lia.
Qed.

Lemma dec_enc_dict (d : list (string * string)) (fuel : nat) :
  (length d <= fuel)%nat -> dec_dict fuel (enc_dict d) = Some d.
Proof.
  revert fuel. induction d as [|[k v] d IH]; intros fuel Hf; simpl; [destruct fuel; reflexivity|].
  destruct fuel as [|f]; [simpl in Hf; lia|].
  destruct (enc_str_cons k (enc_str v ++ enc_dict d)) as (c & s' & Hcs).
  rewrite Hcs. cbn [dec_dict]. rewrite <- Hcs, dec_enc_str, dec_enc_str, IH; [reflexivity|].
  simpl in Hf. lia.
Qed.

Lemma dec_pickle_enc_dict (d : list (string * string)) : dec_pickle (enc_dict d) = Some (PDict d).
Proof. unfold dec_pickle. rewrite dec_enc_dict; [reflexivity|apply length_enc_dict]. Qed.

Lemma setup_then_load_witness :
  exists st' url org token,
    main dec_pickle enc_dict (mkState [] ["http://localhost:8086"; "paros"; "tok"] empty_fs)
      = (st', inr tt) /\
    (forall o, loadInfluxClient dec_pickle (sfs st') creds_file o
               = (o, inr {| idb_url := url; idb_token := token; idb_org := org |})).
Proof.
  assert (Hs : snd (main dec_pickle enc_dict
                      (mkState [] ["http://localhost:8086"; "paros"; "tok"] empty_fs)) = inr tt)
    by (vm_compute; reflexivity).
  destruct (main dec_pickle enc_dict (mkState [] ["http://localhost:8086"; "paros"; "tok"] empty_fs))
    as [s r] eqn:E.
  simpl in Hs. subst r.
  destruct (setup_then_load dec_pickle enc_dict _ _ dec_pickle_enc_dict E)
    as (url & org & token & _ & _ & _ & _ & _ & Hl).
  exists s, url, org, token. split; [reflexivity|exact Hl].
Defined.

Lemma read_existing_found (pickle_load : string -> option pyobj)
    (out inp : list string) (fs : string -> option entry) (c : string)
    (d : list (string * string)) (u o t : string) :
  fs creds_file = Some (File c true) -> pickle_load c = Some (PDict d) ->
  find (fun kv => String.eqb (fst kv) "idb_url") d = Some ("idb_url", u) ->
  find (fun kv => String.eqb (fst kv) "idb_org") d = Some ("idb_org", o) ->
  find (fun kv => String.eqb (fst kv) "idb_token") d = Some ("idb_token", t) ->
  read_existing pickle_load (mkState out inp fs) = (mkState out inp fs, inr (u, o, t)).
Proof.
  intros Hfs Hl Hu Ho Ht. unfold read_existing. simpl. rewrite Hfs, Hl.
  unfold sbind, lift. simpl.
  rewrite (dict_get_found _ _ _ _ Hu). simpl.
  rewrite (dict_get_found _ _ _ _ Ho). simpl.
  rewrite (dict_get_found _ _ _ _ Ht). reflexivity.
Qed.

Lemma ask_blank_default (label cur : string) (out rest : list string) (fs : string -> option entry) :
  cur <> EmptyString ->
  ask label cur (mkState out (EmptyString :: rest) fs)
  = (mkState (app out [prompt_text label cur]) rest fs, inr cur).
Proof.
  intros Hc. apply String.eqb_neq in Hc. unfold ask. simpl. unfold sbind, input. simpl.
  rewrite Hc. reflexivity.
Qed.

(** Re-running setup over an existing credentials file and pressing Enter
    at the three prompts keeps the stored URL, Org and Token: the file is
    rewritten with the same three values and nothing else changes. *)
Theorem setup_blank_keeps_existing (pickle_load : string -> option pyobj)
    (pickle_dump : list (string * string) -> string)
    (out rest : list string) (fs : string -> option entry) (c : string)
    (d : list (string * string)) (u o t : string) :
  fs creds_file = Some (File c true) -> pickle_load c = Some (PDict d) ->
  find (fun kv => String.eqb (fst kv) "idb_url") d = Some ("idb_url", u) ->
  find (fun kv => String.eqb (fst kv) "idb_org") d = Some ("idb_org", o) ->
  find (fun kv => String.eqb (fst kv) "idb_token") d = Some ("idb_token", t) ->
  u <> EmptyString -> o <> EmptyString -> t <> EmptyString ->
  main pickle_load pickle_dump (mkState out (EmptyString :: EmptyString :: EmptyString :: rest) fs)
  = (mkState (app out [prompt_text "URL" u; prompt_text "Org" o; prompt_text "Token" t; saved_msg])
             rest (fs_set fs creds_file (File (pickle_dump (creds_dict u o t)) true)),
     inr tt).
Proof.
  intros Hfs Hl Hu Ho Ht Nu No Nt. unfold main, sbind at 1.
  rewrite (read_existing_found _ _ _ _ _ _ _ _ _ Hfs Hl Hu Ho Ht). cbv beta iota.
  unfold sbind at 1. rewrite (ask_blank_default _ _ _ _ _ Nu). cbv beta iota.
  unfold sbind at 1. rewrite (ask_blank_default _ _ _ _ _ No). cbv beta iota.
  unfold sbind at 1. rewrite (ask_blank_default _ _ _ _ _ Nt). cbv beta iota.
  unfold sbind, write_file. simpl. rewrite Hfs. unfold sprint. simpl.
  rewrite <- !app_assoc. reflexivity.
Qed.

Lemma setup_blank_keeps_existing_witness :
  main sample_pickle enc_dict (mkState [] [EmptyString; EmptyString; EmptyString] sample_fs)
  = (mkState [prompt_text "URL" "http://localhost:8086"; prompt_text "Org" "paros";
              prompt_text "Token" "tok"; saved_msg]
             [] (fs_set sample_fs creds_file
                        (File (enc_dict (creds_dict "http://localhost:8086" "paros" "tok")) true)),
     inr tt).
Proof.
  apply (setup_blank_keeps_existing sample_pickle enc_dict [] [] sample_fs "creds-bytes"
           [("idb_url", "http://localhost:8086"); ("idb_org", "paros"); ("idb_token", "tok")]);
    try reflexivity; discriminate.
Defined.




End SetupProofs.

(** ** The runner of get-paros-data.py

    [main] (lines 101-182) as the events it performs in order: lines
    printed, the one query sent, files written. The InfluxDB query API, the
    output zone's UTC offset and [print(out_df)] are parameters; argument
    parsing is not modelled, [main] takes the parsed arguments. *)
Module GetParos.
Import PyM Frame Normalizer Bundle Exporter Creds.
Open Scope Z_scope.

Record cli_args := {
  start_time : string; end_time : string; output_file : string;
  box_id : option string; sensor_id : option string;
  bucket : string; input_zone : string; output_zone : string; creds : string }.

(** What [query_data_frame] returns: one table or a list of them. *)
Inductive qresult :=
  | QFrame (df : frame)
  | QList (dfs : list frame).

Inductive event :=
  | EPrint (line : string)
  | EQuery (q : string)
  | EWrite (filename : string) (a : artifact).

(** [GBadInput]: the exception of [pytz.timezone] on an unknown zone or of
    [fromisoformat] on a malformed time. *)
Inductive gerr :=
  | GPy (e : exn)
  | GBadInput.

Definition G (A : Type) := list event -> list event * (gerr + A).

Definition gret {A} (a : A) : G A := fun ev => (ev, inr a).
Definition graise {A} (e : gerr) : G A := fun ev => (ev, inl e).
Definition gbind {A B} (m : G A) (k : A -> G B) : G B :=
  fun ev => match m ev with
            | (ev', inl e) => (ev', inl e)
            | (ev', inr a) => k a ev'
            end.

Definition gprint (s : string) : G unit := fun ev => (app ev [EPrint s], inr tt).

(** A step of the printing monad; its lines become print events. *)
Definition glift {A} (m : M A) : G A :=
  fun ev => match m [] with
            | (o, inl e) => (app ev (map EPrint o), inl (GPy e))
            | (o, inr a) => (app ev (map EPrint o), inr a)
            end.

Definition event_of (e : effect) : event :=
  match e with
  | WriteFile f a => EWrite f a
  | Say s => EPrint s
  end.

Definition gemit (effs : list effect) : G unit := fun ev => (app ev (map event_of effs), inr tt).

(** [sorted(set(keys))] on table numbers. *)
Fixpoint insert_z (x : Z) (l : list Z) : list Z :=
  match l with
  | [] => [x]
  | y :: rest => if x <=? y then x :: y :: rest else y :: insert_z x rest
  end.

Fixpoint sort_z (l : list Z) : list Z :=
  match l with
  | [] => []
  | x :: rest => insert_z x (sort_z rest)
  end.

Definition cell_int (c : cell) : option Z :=
  match c with
  | CInt z => Some z
  | _ => None
  end.

Fixpoint ints_of (col : column) : option (list Z) :=
  match col with
  | [] => Some []
  | c :: rest => match cell_int c, ints_of rest with
                 | Some z, Some zs => Some (z :: zs)
                 | _, _ => None
                 end
  end.

(** The rows whose mask entry is [true], in order, in every column. *)
Definition select_rows (mask : list bool) (df : frame) : frame :=
  map (fun c => (fst c, map snd (filter fst (combine mask (snd c))))) df.

(** [[r for _, r in df.groupby('table')]]: one frame per table number, in
    increasing order, holding that table's rows. Table numbers are
    integers in the query results; other keys are not modelled. *)
Definition groupby_table (df : frame) : M (list frame) :=
  col <- getcol df "table" ;;
  match ints_of col with
  | None => raise Unmodelled
  | Some ks =>
      ret (map (fun k => select_rows (map (fun z => Z.eqb z k) ks) df)
               (sort_z (nodup Z.eq_dec ks)))
  end.

(** Lines 147-152. *)
Fixpoint split_list (rs : list frame) : M (list frame) :=
  match rs with
  | [] => ret []
  | r :: rest => gs <- groupby_table r ;; more <- split_list rest ;; ret (app gs more)
  end.

Definition split_tables (r : qresult) : M (list frame) :=
  match r with
  | QFrame df => ret [df]
  | QList rs => split_list rs
  end.

Section Main.
Variable pickle_load : string -> option pyobj.
Variable tzinfo : Type.
Variable pytz_timezone : string -> option tzinfo.
Variable fromisoformat : string -> option PyDatetime.naive.
Variable isoformat : PyDatetime.naive -> string.
Variable localize_offset : tzinfo -> PyDatetime.naive -> Z.
Variable query_data_frame : client -> string -> qresult.
Variable zone_offset : string -> Z -> Z.
Variable dict_repr : dict -> string.

Definition gquery (cl : client) (q : string) : G qresult :=
  fun ev => (app ev [EQuery q], inr (query_data_frame cl q)).

(** Lines 113-140: both zones and both times are parsed before any output;
    [build_query] covers the input zone, the times and the query text. *)
Definition prepare (a : cli_args) : G string :=
  match pytz_timezone (output_zone a),
        Query.build_query tzinfo pytz_timezone fromisoformat isoformat localize_offset
          (bucket a) (input_zone a) (start_time a) (end_time a) (box_id a) (sensor_id a) with
  | Some _, Some q => gret q
  | _, _ => graise GBadInput
  end.

Definition main (fs : string -> option entry) (a : cli_args) : G unit :=
  gbind (glift (loadInfluxClient pickle_load fs (creds a))) (fun cl =>
  gbind (prepare a) (fun q =>
  gbind (gprint (Query.nl ++ "Running InfluxDB Query..." ++ Query.nl)) (fun _ =>
  gbind (gprint (q ++ Query.nl)) (fun _ =>
  gbind (gquery cl q) (fun idb_result =>
  gbind (glift (split_tables idb_result)) (fun dfs_list =>
  gbind (glift (collect (zone_offset (output_zone a)) dfs_list [])) (fun out_df =>
  gbind (gprint (Query.nl ++ "Previewing Dataframes..." ++ Query.nl)) (fun _ =>
  gbind (gprint (dict_repr out_df)) (fun _ =>
  gemit (export (output_file a) out_df)))))))))).

End Main.

End GetParos.

Module GetParosProofs.
Import PyM Frame Normalizer Bundle Exporter Creds GetParos.

Definition is_print (e : event) : Prop :=
  match e with
  | EPrint _ => True
  | _ => False
  end.

Definition not_query (e : event) : Prop :=
  match e with
  | EQuery _ => False
  | _ => True
  end.

Lemma gbind_inr {A B} (m : G A) (k : A -> G B) (ev ev2 : list event) (b : B) :
  gbind m k ev = (ev2, inr b) -> exists ev1 a, m ev = (ev1, inr a) /\ k a ev1 = (ev2, inr b).
Proof.
  unfold gbind. destruct (m ev) as [ev1 [e|a]]; [discriminate|]. intros H. eauto.
Qed.

Lemma glift_inr {A} (m : M A) (ev ev' : list event) (a : A) :
  glift m ev = (ev', inr a) -> ev' = app ev (map EPrint (fst (m []))).
Proof.
  unfold glift. destruct (m []) as [o [e|x]]; intros H; injection H as <-; reflexivity.
Qed.

Section Runner.
Variable pickle_load : string -> option pyobj.
Variable tzinfo : Type.
Variable pytz_timezone : string -> option tzinfo.
Variable fromisoformat : string -> option PyDatetime.naive.
Variable isoformat : PyDatetime.naive -> string.
Variable localize_offset : tzinfo -> PyDatetime.naive -> Z.
Variable query_data_frame : client -> string -> qresult.
Variable zone_offset : string -> Z -> Z.
Variable dict_repr : dict -> string.

Let run_main := main pickle_load tzinfo pytz_timezone fromisoformat isoformat localize_offset
                  query_data_frame zone_offset dict_repr.
Let bq (a : cli_args) := Query.build_query tzinfo pytz_timezone fromisoformat isoformat localize_offset
                  (bucket a) (input_zone a) (start_time a) (end_time a) (box_id a) (sensor_id a).

(** Without a credentials file the runner stops at its first step: it
    prints the loader's message and exits with status 1, sending no query
    and writing no file. *)
Theorem main_without_credentials (fs : string -> option entry) (a : cli_args) :
  isfile fs (creds a) = false ->
  run_main fs a [] = ([EPrint not_found_msg], inl (GPy (SystemExit 1))).
Proof.
  unfold isfile. intros H. unfold run_main, main, gbind at 1, glift, loadInfluxClient.
  destruct (fs (creds a)) as [[c r|]|]; [discriminate| |]; reflexivity.
Qed.

(** A zone name or a time string that does not parse stops the runner
    after the credentials are loaded: no query is sent and no file is
    written; only the loader's output has been printed. *)
Theorem main_bad_input (fs : string -> option entry) (a : cli_args) (o : list string) (cl : client) :
  run (loadInfluxClient pickle_load fs (creds a)) = (o, inr cl) ->
  (pytz_timezone (output_zone a) = None \/ bq a = None) ->
  run_main fs a [] = (map EPrint o, inl GBadInput).
Proof.
  intros Hl Hp. unfold run_main, main, gbind at 1, glift. unfold run in Hl. rewrite Hl.
  unfold gbind, prepare. fold (bq a).
  destruct Hp as [Hp|Hp]; rewrite Hp; [|destruct (pytz_timezone (output_zone a))]; reflexivity.
Qed.

(** A successful run sends exactly one query, the one [build_query]
    assembles; everything before it is printing, and nothing after it is
    another query. *)
Theorem main_single_query (fs : string -> option entry) (a : cli_args) (ev : list event) :
  run_main fs a [] = (ev, inr tt) ->
  exists q pre post,
    bq a = Some q /\ ev = app pre (EQuery q :: post) /\
    Forall is_print pre /\ Forall not_query post.
Proof.
  unfold run_main, main. intros H.
  apply gbind_inr in H. destruct H as (ev1 & cl & H1 & H). apply glift_inr in H1.
  apply gbind_inr in H. destruct H as (ev2 & q & H2 & H).
  unfold prepare in H2. fold (bq a) in H2.
  destruct (pytz_timezone (output_zone a)), (bq a) as [q'|] eqn:Eq; try discriminate.
  injection H2 as <- <-.
  apply gbind_inr in H. destruct H as (ev3 & [] & H3 & H). injection H3 as <-.
  apply gbind_inr in H. destruct H as (ev4 & [] & H4 & H). injection H4 as <-.
  apply gbind_inr in H. destruct H as (ev5 & r & H5 & H). injection H5 as <- <-.
  apply gbind_inr in H. destruct H as (ev6 & dfs & H6 & H). apply glift_inr in H6.
  apply gbind_inr in H. destruct H as (ev7 & d & H7 & H). apply glift_inr in H7.
  apply gbind_inr in H. destruct H as (ev8 & [] & H8 & H). injection H8 as <-.
  apply gbind_inr in H. destruct H as (ev9 & [] & H9 & H). injection H9 as <-.
  unfold gemit in H. injection H as <-.
  subst ev1 ev6 ev7.
  exists q', (app (map EPrint (fst (loadInfluxClient pickle_load fs (creds a) [])))
               [EPrint (Query.nl ++ "Running InfluxDB Query..." ++ Query.nl); EPrint (q' ++ Query.nl)]).
  eexists. split; [reflexivity|]. split.
  - simpl. rewrite <- !app_assoc. simpl. reflexivity.
  - split.
    + apply Forall_app. split; [apply Forall_map, Forall_forall; intros; exact I|].
      repeat constructor.
    + repeat (rewrite <- ?app_assoc; apply Forall_app; split);
        try (apply Forall_map, Forall_forall; intros; exact I);
        try (repeat constructor).
      apply Forall_map, Forall_forall. intros [f x|s] _; exact I.
Qed.

End Runner.

(** Collaborators for evaluation: the query returns one raw result with two
    tables, and zones are fixed offsets. *)
Definition sample_result : frame :=
  [("result", [CStr "_result"; CStr "_result"]); ("table", [CInt 1; CInt 0]);
   ("_time", [CAware 10000000000 0; CAware 20000000000 0]);
   ("_measurement", [CStr "b1"; CStr "b2"]); ("id", [CStr "P1"; CStr "P1"]);
   ("p", [CInt 5; CInt 6])].

Definition sample_args (zone output : string) : cli_args :=
  {| start_time := "2024-01-01T00:00:00"; end_time := "2024-01-02T00:00:00";
     output_file := output; box_id := None; sensor_id := None; bucket := "parosbox";
     input_zone := zone; output_zone := "Etc/UTC"; creds := "influx-creds.pickle" |}.

Definition sample_main (fs : string -> option entry) (a : cli_args) : G unit :=
  main sample_pickle Z Query.pytz_timezone_fixed PyDatetime.fromisoformat_basic
       PyDatetime.isoformat Query.fixed_offset (fun _ _ => QList [sample_result])
       (fun _ => utc_offset) (fun _ => "{...}") fs a.

Lemma main_without_credentials_witness :
  sample_main (fun _ => None) (sample_args "Etc/UTC" "out.csv") []
  = ([EPrint not_found_msg], inl (GPy (SystemExit 1))).
Proof.
  apply (main_without_credentials sample_pickle Z Query.pytz_timezone_fixed
           PyDatetime.fromisoformat_basic PyDatetime.isoformat Query.fixed_offset
           (fun _ _ => QList [sample_result]) (fun _ => utc_offset) (fun _ => "{...}")).
  reflexivity.
Defined.

Lemma main_bad_input_witness :
  sample_main sample_fs (sample_args "Mars/Olympus" "out.csv") [] = ([], inl GBadInput).
Proof.
  apply (main_bad_input sample_pickle Z Query.pytz_timezone_fixed
           PyDatetime.fromisoformat_basic PyDatetime.isoformat Query.fixed_offset
           (fun _ _ => QList [sample_result]) (fun _ => utc_offset) (fun _ => "{...}")
           sample_fs (sample_args "Mars/Olympus" "out.csv") []
           {| idb_url := "http://localhost:8086"; idb_token := "tok"; idb_org := "paros" |});
    [reflexivity|right; reflexivity].
Defined.

Lemma main_single_query_witness :
  exists ev, sample_main sample_fs (sample_args "Etc/UTC" "out.csv") [] = (ev, inr tt) /\
  exists q pre post,
    Query.build_query Z Query.pytz_timezone_fixed PyDatetime.fromisoformat_basic
      PyDatetime.isoformat Query.fixed_offset "parosbox" "Etc/UTC"
      "2024-01-01T00:00:00" "2024-01-02T00:00:00" None None = Some q /\
    ev = app pre (EQuery q :: post) /\ Forall is_print pre /\ Forall not_query post.
Proof.
  eexists. split; [vm_compute; reflexivity|].
  apply (main_single_query sample_pickle Z Query.pytz_timezone_fixed
           PyDatetime.fromisoformat_basic PyDatetime.isoformat Query.fixed_offset
           (fun _ _ => QList [sample_result]) (fun _ => utc_offset) (fun _ => "{...}")
           sample_fs (sample_args "Etc/UTC" "out.csv")).
  vm_compute. reflexivity.
Defined.

End GetParosProofs.

(** ** Splitting a result by table *)
Module GroupbyProofs.
Import PyM Frame GetParos NormalizerFacts.
Open Scope Z_scope.
Local Open Scope nat_scope.























End GroupbyProofs.
